(** * STT summary backends (realtime-whisper, [backend/]): embedding and properties

    The repository holds several stand-alone HTTP backends that take a
    speech-to-text transcript, ask a chat-completion endpoint for a summary
    and optionally mail the summary through an SMTP relay.  This
    development embeds four of them, one module per source file:

    - [working_server] : [backend/working_server.py]
    - [main]           : [backend/main.py]
    - [clean_server]   : [backend/clean_server.py]
    - [simple_http_server] : [backend/simple_http_server.py]

    Python text is a list of Unicode code points, exceptions are values of
    [exn], and the two outbound collaborators ([requests.post] and the
    [smtplib.SMTP] session) are oracles of a [world]; every function that
    may raise or reach a collaborator lives in the monad [M], which returns
    an [outcome] together with the list of outbound calls it made.
    Logging is not modelled. *)

From Stdlib Require Import Ascii String ZArith QArith.
From stdpp Require Import base option list numbers gmap.

Set Default Proof Using "Type".

(** ** Python text *)

(** A [str] is the sequence of its code points, so that [len], [strip]
    and [replace] count and compare characters as Python does. *)
Abbreviation char := N.
Abbreviation str := (list N).

(** Source literals are written as Rocq strings, whose bytes are the UTF-8
    encoding of the text; [u] decodes them to code points.  [pending] is
    the number of continuation bytes still expected and [acc] the bits
    gathered so far. *)
Fixpoint utf8_decode (pending : nat) (acc : N) (bs : list N) : str :=
  match bs with
  | [] => []
  | b :: bs' =>
    match pending with
    | O =>
      if (b <? 128)%N then b :: utf8_decode 0 0%N bs'
      else if (b <? 224)%N then utf8_decode 1 (N.land b 31) bs'
      else if (b <? 240)%N then utf8_decode 2 (N.land b 15) bs'
      else utf8_decode 3 (N.land b 7) bs'
    | S p =>
      let acc' := (acc * 64 + N.land b 63)%N in
      match p with
      | O => acc' :: utf8_decode 0 0%N bs'
      | S _ => utf8_decode p acc' bs'
      end
    end
  end.

Definition u (s : string) : str :=
  utf8_decode 0 0%N (map N_of_ascii (list_ascii_of_string s)).

(** The double quote, and the line feed that joins the lines of a
    triple-quoted literal. *)
Definition dq : str := [34%N].
Definition nl : str := [10%N].

Fixpoint unlines (ls : list str) : str :=
  match ls with
  | [] => []
  | [l] => l
  | l :: ls' => l ++ nl ++ unlines ls'
  end.

(** [str.isspace] on one character: the code points CPython's
    [Py_UNICODE_ISSPACE] accepts. *)
Definition isspace (c : char) : bool :=
  ((9 <=? c) && (c <=? 13) || (28 <=? c) && (c <=? 32)
   || (c =? 133) || (c =? 160) || (c =? 5760)
   || (8192 <=? c) && (c <=? 8202)
   || (c =? 8232) || (c =? 8233) || (c =? 8239) || (c =? 8287)
   || (c =? 12288))%N.

Fixpoint lstrip (s : str) : str :=
  match s with
  | [] => []
  | c :: s' => if isspace c then lstrip s' else s
  end.

Definition rstrip (s : str) : str := rev (lstrip (rev s)).

(** [s.strip()] *)
Definition strip (s : str) : str := rstrip (lstrip s).

(** [s.replace(old, new)] for a one-character [old], the only form the
    sources use. *)
Fixpoint replace (old : char) (new : str) (s : str) : str :=
  match s with
  | [] => []
  | c :: s' => (if (c =? old)%N then new else [c]) ++ replace old new s'
  end.

(** [s.startswith(p)] *)
Fixpoint startswith (s p : str) {struct p} : bool :=
  match p, s with
  | [], _ => true
  | _ :: _, [] => false
  | c :: p', d :: s' => (c =? d)%N && startswith s' p'
  end.

(** [p in s] for texts: [p] occurs as a substring of [s]. *)
Fixpoint contains (s p : str) : bool :=
  startswith s p ||
  match s with
  | [] => false
  | _ :: s' => contains s' p
  end.

(** Truth value of an optional text: [None] and the empty text are falsy. *)
Definition truthy (o : option str) : bool :=
  match o with
  | Some (_ :: _) => true
  | _ => false
  end.

(** ** Exceptions *)

(** Each builtin exception carries the text [str(e)] gives for it;
    [Exception] stands for any class the sources do not single out. *)
Inductive exn : Type :=
| HTTPException (status_code : Z) (detail : str)
| ValueError (msg : str)
| KeyError (msg : str)
| TypeError (msg : str)
| UnicodeEncodeError (msg : str)
| RequestException (msg : str)
| Exception (msg : str).

Inductive outcome (A : Type) : Type :=
| Return (a : A)
| Raise (e : exn).
Arguments Return {A} a.
Arguments Raise {A} e.

(** ** The outbound collaborators *)

(** One chat message and the JSON payload of the completion request. *)
Record message := Message { role : str; content : str }.

Record payload := Payload {
  model : str;
  messages : list message;
  max_tokens : Z;
  temperature : Q
}.

(** The arguments of [requests.post(url, headers=, json=, timeout=)]. *)
Record post_request := PostRequest {
  url : str;
  headers : list (str * str);
  json : payload;
  timeout : Z
}.

(** What the sources read from a [requests.Response]: the status code, the
    body text, the message [raise_for_status] would raise with, and the
    outcome of [response.json()["choices"][0]["message"]["content"]]. *)
Record response := Response {
  status_code : Z;
  text : str;
  http_error_msg : str;
  choices_0_message_content : outcome str
}.

(** The [MIMEMultipart("alternative")] message with its one HTML part. *)
Record mime := Mime {
  Subject : str;
  From : str;
  To : str;
  html_part : str
}.

(** One [with smtplib.SMTP(server, port)] block: [starttls], [login],
    [send_message]. *)
Record smtp_session := SmtpSession {
  smtp_server : str;
  smtp_port : Z;
  login_user : str;
  login_password : str;
  sent_message : mime
}.

Inductive event : Type :=
| Post (r : post_request)
| Smtp (s : smtp_session).

(** The process environment after [load_dotenv()], the two collaborators,
    and the framework's [str()] of an [HTTPException], which the sources
    interpolate into error details. *)
Record world := World {
  environ : gmap str str;
  requests_post : post_request -> outcome response;
  smtp_transaction : smtp_session -> option exn;
  str_HTTPException : Z -> str -> str
}.

(** ** The monad of the handlers *)

Definition M (A : Type) : Type := (outcome A * list event)%type.

Definition ret {A} (a : A) : M A := (Return a, []).

Definition raise {A} (e : exn) : M A := (Raise e, []).

Definition bind {A B} (m : M A) (k : A -> M B) : M B :=
  match m with
  | (Return a, t) => (fst (k a), t ++ snd (k a))
  | (Raise e, t) => (Raise e, t)
  end.

(** [try: m except Exception as e: h e] *)
Definition try_except {A} (m : M A) (h : exn -> M A) : M A :=
  match m with
  | (Return a, t) => (Return a, t)
  | (Raise e, t) => (fst (h e), t ++ snd (h e))
  end.

Definition lift {A} (o : outcome A) : M A := (o, []).

Notation "x <- m ;; k" := (bind m (fun x => k))
  (at level 100, m at next level, right associativity).
Notation "m ;;; k" := (bind m (fun _ => k))
  (at level 100, right associativity).

Section collaborators.
Context (w : world).

(** [os.getenv(name)] *)
Definition getenv (name : str) : option str := environ w !! name.

(** [str(e)] *)
Definition str_exn (e : exn) : str :=
  match e with
  | HTTPException s d => str_HTTPException w s d
  | ValueError m | KeyError m | TypeError m | UnicodeEncodeError m
  | RequestException m | Exception m => m
  end.

(** [requests.post(...)]: the call is made, then returns or raises. *)
Definition post (r : post_request) : M response :=
  (requests_post w r, [Post r]).

(** [response.raise_for_status()] *)
Definition raise_for_status (r : response) : M unit :=
  if ((400 <=? status_code r) && (status_code r <? 600))%Z
  then raise (RequestException (http_error_msg r))
  else ret tt.

(** The SMTP block: the relay is contacted, then every step succeeds or
    one of them raises. *)
Definition smtp (s : smtp_session) : M unit :=
  (match smtp_transaction w s with
   | None => Return tt
   | Some e => Raise e
   end, [Smtp s]).
End collaborators.

(** [d.get(k, default)] and truth value of a dict. *)
Definition dict_get (d : gmap str str) (k : str) (default : str) : str :=
  match d !! k with
  | Some v => v
  | None => default
  end.

Definition dict_truthy (d : option (gmap str str)) : bool :=
  match d with
  | Some m => negb (bool_decide (m = ∅))
  | None => false
  end.

(** [d[k]] *)
Definition dict_getitem (d : gmap str str) (k : str) : M str :=
  match d !! k with
  | Some v => ret v
  | None => raise (KeyError (u "'" ++ k ++ u "'"))
  end.

(** ** Request values *)

(** The JSON value a [dict] request holds under a key, by what a handler
    does with it: a text; a value that has no [len()], null, a boolean or
    a number, with the name of its type, its truth value and its [str()];
    an array or an object, with its [len()] and its [str()]. *)
Inductive value : Type :=
| Text (s : str)
| Unsized (type_name : str) (truth : bool) (formatted : str)
| Sized (len : nat) (formatted : str).

(** [len(v)] *)
Definition len (v : value) : M nat :=
  match v with
  | Text s => ret (length s)
  | Sized n _ => ret n
  | Unsized type_name _ _ =>
    raise (TypeError (u "object of type '" ++ type_name
                      ++ u "' has no len()"))
  end.

(** [bool(v)] *)
Definition truth_value (v : value) : bool :=
  match v with
  | Text s => truthy (Some s)
  | Sized n _ => negb (n =? 0)%nat
  | Unsized _ truth _ => truth
  end.

(** [str(v)], which an f-string interpolates. *)
Definition format (v : value) : str :=
  match v with
  | Text s => s
  | Sized _ formatted | Unsized _ _ formatted => formatted
  end.

(** ** The HTML part of a mail *)

(** The code points U+D800 to U+DFFF.  A Python text may hold them one by
    one ([json.loads] accepts an escaped lone surrogate); UTF-8 has no
    encoding for them. *)
Definition is_surrogate (c : char) : bool :=
  (55296 <=? c)%N && (c <=? 57343)%N.

(** [text.encode("utf-8")] succeeds exactly on these texts. *)
Definition encodable (text : str) : bool :=
  forallb (fun c => negb (is_surrogate c)) text.

Fixpoint decimal_digits (d : Decimal.uint) : str :=
  match d with
  | Decimal.Nil => []
  | Decimal.D0 d => 48%N :: decimal_digits d
  | Decimal.D1 d => 49%N :: decimal_digits d
  | Decimal.D2 d => 50%N :: decimal_digits d
  | Decimal.D3 d => 51%N :: decimal_digits d
  | Decimal.D4 d => 52%N :: decimal_digits d
  | Decimal.D5 d => 53%N :: decimal_digits d
  | Decimal.D6 d => 54%N :: decimal_digits d
  | Decimal.D7 d => 55%N :: decimal_digits d
  | Decimal.D8 d => 56%N :: decimal_digits d
  | Decimal.D9 d => 57%N :: decimal_digits d
  end.

(** [str(n)] *)
Definition decimal (n : nat) : str := decimal_digits (Nat.to_uint n).

Fixpoint hex_digits (d : Hexadecimal.uint) : str :=
  match d with
  | Hexadecimal.Nil => []
  | Hexadecimal.D0 d => 48%N :: hex_digits d
  | Hexadecimal.D1 d => 49%N :: hex_digits d
  | Hexadecimal.D2 d => 50%N :: hex_digits d
  | Hexadecimal.D3 d => 51%N :: hex_digits d
  | Hexadecimal.D4 d => 52%N :: hex_digits d
  | Hexadecimal.D5 d => 53%N :: hex_digits d
  | Hexadecimal.D6 d => 54%N :: hex_digits d
  | Hexadecimal.D7 d => 55%N :: hex_digits d
  | Hexadecimal.D8 d => 56%N :: hex_digits d
  | Hexadecimal.D9 d => 57%N :: hex_digits d
  | Hexadecimal.Da d => 97%N :: hex_digits d
  | Hexadecimal.Db d => 98%N :: hex_digits d
  | Hexadecimal.Dc d => 99%N :: hex_digits d
  | Hexadecimal.Dd d => 100%N :: hex_digits d
  | Hexadecimal.De d => 101%N :: hex_digits d
  | Hexadecimal.Df d => 102%N :: hex_digits d
  end.

(** Number of surrogates a text starts with. *)
Fixpoint surrogate_run (text : str) : nat :=
  match text with
  | c :: text' => if is_surrogate c then S (surrogate_run text') else 0
  | [] => 0
  end.

(** What [str()] of the [UnicodeEncodeError] of [text.encode("utf-8")]
    says about its object: the first surrogate and its position, or the
    positions of the run of surrogates that starts there.  [start] is the
    position of the head of [text]. *)
Fixpoint unencodable (text : str) (start : nat) : option str :=
  match text with
  | [] => None
  | c :: text' =>
    if is_surrogate c then
      Some match surrogate_run text' with
           | 0 =>
             u "character '\u" ++ hex_digits (N.to_hex_uint c)
             ++ u "' in position " ++ decimal start
           | S n =>
             u "characters in position " ++ decimal start
             ++ u "-" ++ decimal (start + S n)
           end
    else unencodable text' (S start)
  end.

(** [MIMEText(text, "html", "utf-8")]: the constructor encodes the text
    at once, so it raises on a text UTF-8 cannot encode; otherwise the
    part carries the text. *)
Definition MIMEText (text : str) : M str :=
  match unencodable text 0 with
  | None => ret text
  | Some what =>
    raise (UnicodeEncodeError
             (u "'utf-8' codec can't encode " ++ what
              ++ u ": surrogates not allowed"))
  end.

(** A JSON value of the dict literals the diagnostic endpoints return; the
    only lists are lists of texts. *)
Inductive jval : Type :=
| VNull
| VBool (b : bool)
| VInt (n : Z)
| VStr (s : str)
| VList (l : list str).

(** Truth value of such a value. *)
Definition jtruthy (v : jval) : bool :=
  match v with
  | VNull => false
  | VBool b => b
  | VInt n => negb (n =? 0)%Z
  | VStr [] => false
  | VStr (_ :: _) => true
  | VList [] => false
  | VList (_ :: _) => true
  end.

(** [a and b] on optional texts: [a] when it is falsy, else [b]. *)
Definition py_and (a b : option str) : option str :=
  if truthy a then b else a.

(** [len(s) if s else 0] *)
Definition len_or_zero (o : option str) : Z :=
  match o with
  | Some (c :: s) => Z.of_nat (length (c :: s))
  | _ => 0%Z
  end.

(** [s[:10] + "..." if s else None] *)
Definition redacted (o : option str) : jval :=
  match o with
  | Some (c :: s) => VStr (take 10 (c :: s) ++ u "...")
  | _ => VNull
  end.

(** ** backend/working_server.py *)

Module working_server.

(** [get_korean_prompt()] *)
Definition get_korean_prompt : str :=
  unlines
    [ u "";
      u "다음은 회의 음성을 STT로 변환한 원본 텍스트입니다. ";
      u "아래 작업을 수행해주세요:";
      u "";
      u "1. STT 오류 보정: 명백한 인식 오류나 문법 오류를 자연스럽게 수정";
      u "2. 회의 요약 작성: ";
      u "   - 주요 논의 사항 (3-5개 핵심 포인트)";
      u "   - 결정된 사항";
      u "   - 액션 아이템 (담당자와 기한 포함 시)";
      u "   - 다음 회의 일정이나 후속 조치";
      u "";
      u "응답 형식:";
      u "## 📝 회의 요약";
      u "";
      u "### 🎯 주요 논의 사항";
      u "- 핵심 포인트 1";
      u "- 핵심 포인트 2";
      u "";
      u "### ✅ 결정 사항";
      u "- 결정된 내용들";
      u "";
      u "### 📋 액션 아이템";
      u "- [ ] 작업 내용 (담당자, 기한)";
      u "";
      u "### 📅 후속 조치";
      u "- 다음 회의 일정 등";
      u "";
      u "원본 STT 텍스트:";
      u "" ].

(** [get_english_prompt()] *)
Definition get_english_prompt : str :=
  unlines
    [ u "";
      u "Please summarize this meeting transcript:";
      u "";
      u "1. STT Error Correction: Fix obvious speech recognition errors";
      u "2. Meeting Summary:";
      u "   - Key discussion points (3-5 core points)";
      u "   - Decisions made";
      u "   - Action items (with assignees and deadlines)";
      u "   - Follow-up actions";
      u "";
      u "Response format:";
      u "## 📝 Meeting Summary";
      u "";
      u "### 🎯 Key Discussion Points";
      u "- Point 1";
      u "- Point 2";
      u "";
      u "### ✅ Decisions Made";
      u "- Decided items";
      u "";
      u "### 📋 Action Items";
      u "- [ ] Task (assignee, deadline)";
      u "";
      u "### 📅 Follow-up Actions";
      u "- Next meeting schedule";
      u "";
      u "Original STT Text:";
      u "" ].

Definition html_0 : str :=
  unlines
    [ u "";
      u "        <!DOCTYPE html>";
      u "        <html>";
      u "        <head>";
      u "            <meta charset=" ++ dq ++ u "utf-8" ++ dq ++ u ">";
      u "            <style>";
      u "                body { font-family: -apple-system, BlinkMacSystemFont, 'Segoe UI', Roboto, sans-serif; line-height: 1.6; color: #333; }";
      u "                .header { background: #f8f9fa; padding: 20px; border-radius: 8px; margin-bottom: 20px; }";
      u "                .content { padding: 20px; }";
      u "                .summary { background: #fff; border: 1px solid #e9ecef; border-radius: 8px; padding: 20px; }";
      u "                h1, h2, h3 { color: #2d3748; }";
      u "                .meta-info { background: #e3f2fd; padding: 15px; border-radius: 5px; margin-bottom: 20px; }";
      u "            </style>";
      u "        </head>";
      u "        <body>";
      u "            <div class=" ++ dq ++ u "header" ++ dq ++ u ">";
      u "                <h1>🎯 AI 회의 요약 결과</h1>";
      u "                <p>STT 결과를 분석하여 자동으로 생성된 회의 요약입니다.</p>";
      u "            </div>";
      u "            ";
      u "            " ].

Definition html_1 : str :=
  unlines
    [ u "";
      u "            ";
      u "            <div class=" ++ dq ++ u "content" ++ dq ++ u ">";
      u "                <div class=" ++ dq ++ u "summary" ++ dq ++ u ">";
      u "                    <div style=" ++ dq ++ u "white-space: pre-wrap; font-family: inherit;" ++ dq ++ u ">";
      u "" ].

Definition html_2 : str :=
  unlines
    [ u "";
      u "                    </div>";
      u "                </div>";
      u "            </div>";
      u "            ";
      u "            <div style=" ++ dq ++ u "margin-top: 30px; padding: 15px; background: #f8f9fa; border-radius: 5px; font-size: 12px; color: #6c757d;" ++ dq ++ u ">";
      u "                <p>이 요약은 AI(OpenAI GPT-4)를 통해 자동 생성되었습니다. 내용을 검토하시고 필요시 수정해 주세요.</p>";
      u "            </div>";
      u "        </body>";
      u "        </html>";
      u "        " ].

Definition meta_0 : str :=
  unlines
    [ u "";
      u "            <div class=" ++ dq ++ u "meta-info" ++ dq ++ u ">";
      u "                <h3>📅 회의 정보</h3>";
      u "                <p><strong>날짜:</strong> " ].

Definition meta_1 : str :=
  unlines
    [ u "</p>";
      u "                <p><strong>시작 시간:</strong> " ].

Definition meta_2 : str :=
  unlines
    [ u "</p>";
      u "                <p><strong>녹음 시간:</strong> " ].

Definition meta_3 : str :=
  unlines
    [ u "</p>";
      u "                <p><strong>세그먼트 수:</strong> " ].

Definition meta_4 : str :=
  unlines
    [ u "개</p>";
      u "            </div>";
      u "            " ].

Definition system_content : str :=
  u "You are a professional meeting summarizer with expertise in correcting STT errors and creating structured summaries.".

(** The JSON body of the request, with text-valued fields; [None] is a
    key the body does not have.  A value of [meetingInfo] is kept as the
    text an f-string renders for it, which is all the handler does with
    it. *)
Record request := Request {
  transcript : option str;
  language : option str;
  email : option str;
  meetingInfo : option (gmap str str)
}.

(** The dict the handler returns. *)
Record result := Result {
  success : bool;
  summary : str;
  emailSent : bool
}.

Section with_world.
Context (w : world).

Definition call_openai_api (transcript language : str) : M str :=
  match getenv w (u "OPENAI_API_KEY") with
  | None | Some [] =>
    raise (HTTPException 500 (u "OPENAI_API_KEY가 설정되지 않았습니다"))
  | Some openai_api_key =>
    let url := u "https://api.openai.com/v1/chat/completions" in
    let headers :=
      [ (u "Content-Type", u "application/json");
        (u "Authorization", u "Bearer " ++ openai_api_key) ] in
    let prompt :=
      if bool_decide (language = u "korean")
      then get_korean_prompt else get_english_prompt in
    let payload :=
      {| model := u "gpt-4o";
         messages :=
           [ {| role := u "system"; content := system_content |};
             {| role := u "user";
                content := prompt ++ nl ++ nl ++ transcript |} ];
         max_tokens := 2000;
         temperature := 3 # 10 |} in
    response <-
      post w {| url := url; headers := headers; json := payload;
                timeout := 60 |} ;;
    if (status_code response =? 200)%Z then
      content <- lift (choices_0_message_content response) ;;
      ret content
    else
      raise (HTTPException 500 (u "OpenAI API 오류: " ++ text response))
  end.

(** The [meta-info] block of the mail body: [meeting_info["date"]] is a
    subscript, the other three fields go through [.get]. *)
Definition meta_info (meeting_info : option (gmap str str)) : M str :=
  match meeting_info with
  | Some d =>
    if dict_truthy meeting_info then
      date <- dict_getitem d (u "date") ;;
      ret (meta_0 ++ date
           ++ meta_1 ++ dict_get d (u "startTime") []
           ++ meta_2 ++ dict_get d (u "duration") []
           ++ meta_3 ++ dict_get d (u "segmentCount") []
           ++ meta_4)
    else ret []
  | None => ret []
  end.

Definition subject (meeting_info : option (gmap str str)) : str :=
  u "📋 회의 요약 - " ++
  match meeting_info with
  | Some d =>
    if dict_truthy meeting_info
    then dict_get d (u "date") (u "오늘") else u "오늘"
  | None => u "오늘"
  end.

Definition html_content (summary : str)
    (meeting_info : option (gmap str str)) : M str :=
  meta <- meta_info meeting_info ;;
  ret (html_0 ++ meta ++ html_1
       ++ replace 62 (u "&gt;") (replace 60 (u "&lt;") summary)
       ++ html_2).

Definition send_email (email summary : str)
    (meeting_info : option (gmap str str)) : M bool :=
  try_except
    (let smtp_server := u "smtp.gmail.com" in
     let smtp_port := 587%Z in
     match getenv w (u "GMAIL_USER"), getenv w (u "GMAIL_APP_PASSWORD") with
     | Some (c :: s), Some (c' :: s') =>
       let sender_email := c :: s in
       let sender_password := c' :: s' in
       let subject := subject meeting_info in
       html_content <- html_content summary meeting_info ;;
       html_part <- MIMEText html_content ;;
       let message :=
         {| Subject := subject; From := sender_email; To := email;
            html_part := html_part |} in
       smtp w {| smtp_server := smtp_server; smtp_port := smtp_port;
                 login_user := sender_email;
                 login_password := sender_password;
                 sent_message := message |} ;;;
       ret true
     | _, _ => ret false
     end)
    (fun e => ret false).

Definition summarize_and_email (request : request) : M result :=
  try_except
    (let transcript := default [] (transcript request) in
     let language := default (u "korean") (language request) in
     let email := default [] (email request) in
     let meeting_info := default ∅ (meetingInfo request) in
     if negb (truthy (Some transcript)) || (length transcript <? 10)%nat
     then raise (HTTPException 400 (u "텍스트가 너무 짧습니다"))
     else
       summary <- call_openai_api transcript language ;;
       email_sent <-
         (if truthy (Some email) && truthy (Some (strip email))
          then send_email (strip email) summary (Some meeting_info)
          else ret false) ;;
       ret {| success := true; summary := summary;
              emailSent := email_sent |})
    (fun e =>
       match e with
       | HTTPException _ _ => raise e
       | _ => raise (HTTPException 500 (u "요약 처리 실패: " ++ str_exn w e))
       end).

(** [GET /health] *)
Definition health_check : gmap str jval :=
  let openai_key := getenv w (u "OPENAI_API_KEY") in
  let gmail_user := getenv w (u "GMAIL_USER") in
  let gmail_pass := getenv w (u "GMAIL_APP_PASSWORD") in
  {[ u "status" := VStr (u "healthy");
     u "openai_configured" := VBool (truthy openai_key);
     u "openai_key_length" := VInt (len_or_zero openai_key);
     u "gmail_configured" := VBool (truthy (py_and gmail_user gmail_pass));
     u "gmail_user" := redacted gmail_user ]}.
End with_world.

End working_server.

(** ** backend/main.py *)

Module main.

Definition OPENAI_API_URL : str :=
  u "https://api.openai.com/v1/chat/completions".

(** The pydantic models. *)
Record MeetingInfo := Build_MeetingInfo {
  date : str;
  startTime : str;
  duration : str;
  segmentCount : Z
}.

Record SummaryRequest := Build_SummaryRequest {
  transcript : str;
  language : str;
  email : str;
  meetingInfo : option MeetingInfo;
  prompt : option str
}.

Record SummaryResponse := Build_SummaryResponse {
  success : bool;
  summary : option str;
  correctedTranscript : option str;
  emailSent : bool;
  error : option str
}.

(** [get_korean_prompt()] *)
Definition get_korean_prompt : str :=
  unlines
    [ u "";
      u "당신은 전문적인 회의록 요약 전문가입니다. 주어진 STT 결과를 분석하고 요약해주세요.";
      u "";
      u "다음과 같은 형식으로 요약해주세요:";
      u "";
      u "##📝 회의 요약";
      u "";
      u "###🎯 주요 논의 사항";
      u "- (주요 논의된 내용들을 요점 정리)";
      u "";
      u "";
      u "###🔧 STT 결과 개선사항";
      u "- (STT에서 잘못 인식된 부분이 있다면 수정사항 제시)";
      u "";
      u "**주의사항:**";
      u "1. STT 결과에 오류가 있을 수 있으므로 문맥을 고려해 해석하세요";
      u "2. 중요한 숫자, 날짜, 이름 등은 정확히 파악하세요";
      u "3. 불필요한 추측은 하지 마세요";
      u "4. 한국어로 작성해주세요";
      u "" ].

(** [get_english_prompt()] *)
Definition get_english_prompt : str :=
  unlines
    [ u "";
      u "You are a professional meeting summarizer. Please analyze and summarize the given STT results.";
      u "";
      u "Please format the summary as follows:";
      u "";
      u "## 📝 Meeting Summary";
      u "";
      u "### 🎯 Key Discussion Points";
      u "- (Main topics discussed)";
      u "";
      u "### ✅ Decisions Made";
      u "- (Decisions reached during the meeting)";
      u "";
      u "### 📋 Action Items";
      u "- (Follow-up tasks and responsibilities)";
      u "";
      u "### 🔧 STT Corrections";
      u "- (Any corrections needed for STT misrecognitions)";
      u "";
      u "**Guidelines:**";
      u "1. STT results may contain errors, so interpret based on context";
      u "2. Accurately identify important numbers, dates, names";
      u "3. Avoid unnecessary speculation";
      u "4. Write in English";
      u "" ].

Definition html_0 : str :=
  unlines
    [ u "";
      u "        <!DOCTYPE html>";
      u "        <html>";
      u "        <head>";
      u "            <meta charset=" ++ dq ++ u "utf-8" ++ dq ++ u ">";
      u "            <style>";
      u "                body { font-family: -apple-system, BlinkMacSystemFont, 'Segoe UI', Roboto, sans-serif; line-height: 1.6; color: #333; }";
      u "                .header { background: #f8f9fa; padding: 20px; border-radius: 8px; margin-bottom: 20px; }";
      u "                .content { padding: 20px; }";
      u "                .summary { background: #fff; border: 1px solid #e9ecef; border-radius: 8px; padding: 20px; }";
      u "                h1, h2, h3 { color: #2d3748; }";
      u "                .meta-info { background: #e3f2fd; padding: 15px; border-radius: 5px; margin-bottom: 20px; }";
      u "            </style>";
      u "        </head>";
      u "        <body>";
      u "            <div class=" ++ dq ++ u "header" ++ dq ++ u ">";
      u "                <h1>🎯 AI 회의 요약 결과</h1>";
      u "                <p>STT 결과를 분석하여 자동으로 생성된 회의 요약입니다.</p>";
      u "            </div>";
      u "            ";
      u "            " ].

Definition html_1 : str :=
  unlines
    [ u "";
      u "            ";
      u "            <div class=" ++ dq ++ u "content" ++ dq ++ u ">";
      u "                <div class=" ++ dq ++ u "summary" ++ dq ++ u ">";
      u "                    <div style=" ++ dq ++ u "white-space: pre-wrap; font-family: inherit;" ++ dq ++ u ">";
      u "" ].

Definition html_2 : str :=
  unlines
    [ u "";
      u "                    </div>";
      u "                </div>";
      u "            </div>";
      u "            ";
      u "            <div style=" ++ dq ++ u "margin-top: 30px; padding: 15px; background: #f8f9fa; border-radius: 5px; font-size: 12px; color: #6c757d;" ++ dq ++ u ">";
      u "                <p>이 요약은 AI(OpenAI GPT-4)를 통해 자동 생성되었습니다. 내용을 검토하시고 필요시 수정해 주세요.</p>";
      u "                <p>생성 시간: " ].

Definition html_3 : str :=
  unlines
    [ u "</p>";
      u "            </div>";
      u "        </body>";
      u "        </html>";
      u "        " ].

Definition meta_0 : str :=
  unlines
    [ u "";
      u "            <div class=" ++ dq ++ u "meta-info" ++ dq ++ u ">";
      u "                <h3>📅 회의 정보</h3>";
      u "                <p><strong>날짜:</strong> " ].

Definition meta_1 : str :=
  unlines
    [ u "</p>";
      u "                <p><strong>시작 시간:</strong> " ].

Definition meta_2 : str :=
  unlines
    [ u "</p>";
      u "                <p><strong>녹음 시간:</strong> " ].

Definition meta_3 : str :=
  unlines
    [ u "</p>";
      u "            </div>";
      u "            " ].

Section with_world.
Context (w : world).

Definition call_openai_api (messages : list message) (model : str) : M str :=
  match getenv w (u "OPENAI_API_KEY") with
  | None | Some [] =>
    raise (ValueError (u "OPENAI_API_KEY 환경변수가 설정되지 않았습니다"))
  | Some openai_api_key =>
    let headers :=
      [ (u "Content-Type", u "application/json");
        (u "Authorization", u "Bearer " ++ openai_api_key) ] in
    let payload :=
      {| model := model; messages := messages;
         max_tokens := 2000; temperature := 3 # 10 |} in
    try_except
      (response <-
         post w {| url := OPENAI_API_URL; headers := headers;
                   json := payload; timeout := 60 |} ;;
       raise_for_status response ;;;
       lift (choices_0_message_content response))
      (fun e =>
         match e with
         | RequestException _ =>
           raise (HTTPException 500
                    (u "OpenAI API 호출 실패: " ++ str_exn w e))
         | KeyError _ =>
           raise (HTTPException 500
                    (u "OpenAI API 응답 파싱 실패: " ++ str_exn w e))
         | _ => raise e
         end)
  end.

Definition generate_summary (transcript language : str) : M str :=
  try_except
    (let prompt :=
       if bool_decide (language = u "korean")
       then get_korean_prompt else get_english_prompt in
     let messages :=
       [ {| role := u "system";
            content := u "You are a professional meeting summarizer with expertise in correcting STT errors and creating structured summaries." |};
         {| role := u "user";
            content := prompt ++ nl ++ nl ++ u "**회의 내용:**" ++ nl
                       ++ transcript |} ] in
     call_openai_api messages (u "gpt-4o"))
    (fun e =>
       raise (HTTPException 500 (u "요약 생성 실패: " ++ str_exn w e))).

Definition date_or_today (meeting_info : option MeetingInfo) : str :=
  match meeting_info with
  | Some mi => date mi
  | None => u "오늘"
  end.

Definition meta_info (meeting_info : option MeetingInfo) : str :=
  match meeting_info with
  | Some mi =>
    meta_0 ++ date mi ++ meta_1 ++ startTime mi ++ meta_2 ++ duration mi
    ++ meta_3
  | None => []
  end.

Definition html_content (summary : str)
    (meeting_info : option MeetingInfo) : str :=
  html_0 ++ meta_info meeting_info ++ html_1
  ++ replace 62 (u "&gt;") (replace 60 (u "&lt;") summary)
  ++ html_2 ++ date_or_today meeting_info ++ html_3.

Definition send_email (email summary : str)
    (meeting_info : option MeetingInfo) : M bool :=
  try_except
    (let smtp_server := u "smtp.gmail.com" in
     let smtp_port := 587%Z in
     match getenv w (u "GMAIL_USER"), getenv w (u "GMAIL_APP_PASSWORD") with
     | Some (c :: s), Some (c' :: s') =>
       let sender_email := c :: s in
       let sender_password := c' :: s' in
       html_part <- MIMEText (html_content summary meeting_info) ;;
       let message :=
         {| Subject := u "📋 회의 요약 - " ++ date_or_today meeting_info;
            From := sender_email; To := email;
            html_part := html_part |} in
       smtp w {| smtp_server := smtp_server; smtp_port := smtp_port;
                 login_user := sender_email;
                 login_password := sender_password;
                 sent_message := message |} ;;;
       ret true
     | _, _ =>
       raise (ValueError (u "Gmail 인증 정보가 설정되지 않았습니다"))
     end)
    (fun e =>
       raise (HTTPException 500 (u "이메일 발송 실패: " ++ str_exn w e))).

Definition summarize_and_email (request : SummaryRequest)
    : M SummaryResponse :=
  try_except
    (if negb (truthy (Some (strip (transcript request)))) then
       raise (HTTPException 400 (u "요약할 텍스트가 비어있습니다"))
     else if (length (transcript request) <? 10)%nat then
       raise (HTTPException 400 (u "텍스트가 너무 짧습니다"))
     else
       summary <-
         generate_summary (transcript request) (language request) ;;
       email_sent <-
         send_email (email request) summary (meetingInfo request) ;;
       ret {| success := true; summary := Some summary;
              correctedTranscript := None; emailSent := email_sent;
              error := None |})
    (fun e =>
       match e with
       | HTTPException _ _ => raise e
       | _ =>
         ret {| success := false; summary := None;
                correctedTranscript := None; emailSent := false;
                error := Some (str_exn w e) |}
       end).

(** [health_status.get("warnings", [])] *)
Definition warnings_of (health_status : gmap str jval) : list str :=
  match health_status !! u "warnings" with
  | Some (VList l) => l
  | _ => []
  end.

(** [GET /health]: the dict is built, then a warning is appended for each
    part that is not configured.  A subscript of [health_status] reads a
    key the literal has. *)
Definition health_check : gmap str jval :=
  let openai_key := getenv w (u "OPENAI_API_KEY") in
  let gmail_user := getenv w (u "GMAIL_USER") in
  let gmail_pass := getenv w (u "GMAIL_APP_PASSWORD") in
  let health_status : gmap str jval :=
    {[ u "status" := VStr (u "healthy");
       u "openai_configured" := VBool (truthy openai_key);
       u "openai_key_length" := VInt (len_or_zero openai_key);
       u "gmail_configured" := VBool (truthy (py_and gmail_user gmail_pass));
       u "gmail_user" := redacted gmail_user;
       u "env_file_loaded" := VBool true ]} in
  let health_status :=
    if negb (jtruthy (default VNull (health_status !! u "openai_configured")))
    then <[ u "warnings" :=
              VList (warnings_of health_status
                     ++ [u "OpenAI API 키가 설정되지 않음"]) ]>
           health_status
    else health_status in
  let health_status :=
    if negb (jtruthy (default VNull (health_status !! u "gmail_configured")))
    then <[ u "warnings" :=
              VList (warnings_of health_status
                     ++ [u "Gmail 인증 정보가 설정되지 않음"]) ]>
           health_status
    else health_status in
  health_status.

(** [POST /test-openai] *)
Definition test_openai : M (gmap str jval) :=
  try_except
    (match getenv w (u "OPENAI_API_KEY") with
     | None | Some [] =>
       ret {[ u "success" := VBool false;
              u "error" := VStr (u "OpenAI API 키가 설정되지 않음") ]}
     | Some _ =>
       let messages :=
         [ {| role := u "user";
              content := u "간단히 '테스트 성공'이라고 답해주세요." |} ] in
       result <- call_openai_api messages (u "gpt-4o") ;;
       ret {[ u "success" := VBool true;
              u "message" := VStr (u "OpenAI API 호출 성공");
              u "response" := VStr result ]}
     end)
    (fun e =>
       ret {[ u "success" := VBool false;
              u "error" := VStr (str_exn w e) ]}).
End with_world.

End main.

(** ** backend/clean_server.py *)

Module clean_server.

Definition OPENAI_API_URL : str :=
  u "https://api.openai.com/v1/chat/completions".

(** The two prompts are, character for character, those of
    [working_server.py]. *)
Definition get_korean_prompt : str := working_server.get_korean_prompt.
Definition get_english_prompt : str := working_server.get_english_prompt.

Definition html_0 : str :=
  unlines
    [ u "";
      u "        <!DOCTYPE html>";
      u "        <html>";
      u "        <head>";
      u "            <meta charset=" ++ dq ++ u "utf-8" ++ dq ++ u ">";
      u "            <style>";
      u "                body { font-family: -apple-system, BlinkMacSystemFont, 'Segoe UI', Roboto, sans-serif; line-height: 1.6; color: #333; }";
      u "                .content { padding: 20px; }";
      u "                .summary { background: #fff; border: 1px solid #e9ecef; border-radius: 8px; padding: 20px; }";
      u "            </style>";
      u "        </head>";
      u "        <body>";
      u "            <div class=" ++ dq ++ u "content" ++ dq ++ u ">";
      u "                <h1>🎯 AI 회의 요약 결과</h1>";
      u "                " ].

Definition html_1 : str :=
  unlines
    [ u "";
      u "                <div class=" ++ dq ++ u "summary" ++ dq ++ u ">";
      u "                    <div style=" ++ dq ++ u "white-space: pre-wrap; font-family: inherit;" ++ dq ++ u ">";
      u "" ].

Definition html_2 : str :=
  unlines
    [ u "";
      u "                    </div>";
      u "                </div>";
      u "                <hr>";
      u "                <p style=" ++ dq ++ u "font-size: 12px; color: #666;" ++ dq ++ u ">";
      u "                    이 요약은 AI(OpenAI GPT-4)를 통해 자동 생성되었습니다.";
      u "                </p>";
      u "            </div>";
      u "        </body>";
      u "        </html>";
      u "        " ].

Definition meta_0 : str :=
  u "<p><strong>날짜:</strong> ".

Definition meta_1 : str :=
  u "</p>".

(** The request is a [dict]: the handler takes the length of whatever
    sits under [transcript] before it validates it. *)
Record request := Request {
  transcript : option value;
  language : option str;
  email : option str;
  meetingInfo : option (gmap str str)
}.

Record result := Result {
  success : bool;
  summary : str;
  emailSent : bool
}.

Section with_world.
Context (w : world).

Definition call_openai_api (transcript language : str) : M str :=
  match getenv w (u "OPENAI_API_KEY") with
  | None | Some [] =>
    raise (HTTPException 500 (u "OPENAI_API_KEY가 설정되지 않았습니다"))
  | Some openai_api_key =>
    let headers :=
      [ (u "Content-Type", u "application/json");
        (u "Authorization", u "Bearer " ++ openai_api_key) ] in
    let prompt :=
      if bool_decide (language = u "korean")
      then get_korean_prompt else get_english_prompt in
    let payload :=
      {| model := u "gpt-4o";
         messages :=
           [ {| role := u "system";
                content := working_server.system_content |};
             {| role := u "user";
                content := prompt ++ nl ++ nl ++ transcript |} ];
         max_tokens := 2000;
         temperature := 3 # 10 |} in
    try_except
      (response <-
         post w {| url := OPENAI_API_URL; headers := headers;
                   json := payload; timeout := 60 |} ;;
       raise_for_status response ;;;
       lift (choices_0_message_content response))
      (fun e =>
         match e with
         | RequestException _ =>
           raise (HTTPException 500
                    (u "OpenAI API 호출 실패: " ++ str_exn w e))
         | KeyError _ =>
           raise (HTTPException 500
                    (u "OpenAI API 응답 파싱 실패: " ++ str_exn w e))
         | _ => raise e
         end)
  end.

(** The date line is rendered only when [meeting_info] is a non-empty
    dict that has the key: [meeting_info and "date" in meeting_info]. *)
Definition date_line (meeting_info : option (gmap str str)) : M str :=
  match meeting_info with
  | Some d =>
    if dict_truthy meeting_info && bool_decide (is_Some (d !! u "date"))
    then
      date <- dict_getitem d (u "date") ;;
      ret (meta_0 ++ date ++ meta_1)
    else ret []
  | None => ret []
  end.

Definition subject (meeting_info : option (gmap str str)) : str :=
  u "📋 회의 요약 - " ++
  match meeting_info with
  | Some d =>
    if dict_truthy meeting_info
    then dict_get d (u "date") (u "오늘") else u "오늘"
  | None => u "오늘"
  end.

Definition html_content (summary : str)
    (meeting_info : option (gmap str str)) : M str :=
  line <- date_line meeting_info ;;
  ret (html_0 ++ line ++ html_1
       ++ replace 62 (u "&gt;") (replace 60 (u "&lt;") summary)
       ++ html_2).

Definition send_email (email summary : str)
    (meeting_info : option (gmap str str)) : M bool :=
  try_except
    (let smtp_server := u "smtp.gmail.com" in
     let smtp_port := 587%Z in
     match getenv w (u "GMAIL_USER"), getenv w (u "GMAIL_APP_PASSWORD") with
     | Some (c :: s), Some (c' :: s') =>
       let sender_email := c :: s in
       let sender_password := c' :: s' in
       let subject := subject meeting_info in
       html_content <- html_content summary meeting_info ;;
       html_part <- MIMEText html_content ;;
       let message :=
         {| Subject := subject; From := sender_email; To := email;
            html_part := html_part |} in
       smtp w {| smtp_server := smtp_server; smtp_port := smtp_port;
                 login_user := sender_email;
                 login_password := sender_password;
                 sent_message := message |} ;;;
       ret true
     | _, _ => ret false
     end)
    (fun e => ret false).

Definition summarize_and_email (request : request) : M result :=
  try_except
    (let transcript := default (Text []) (transcript request) in
     let language := default (u "korean") (language request) in
     let email := default [] (email request) in
     let meeting_info := default ∅ (meetingInfo request) in
     (* the log line interpolates [len(transcript)] *)
     len_transcript <- len transcript ;;
     if negb (truth_value transcript) || (len_transcript <? 10)%nat
     then raise (HTTPException 400 (u "텍스트가 너무 짧습니다"))
     else
       summary <-
         try_except (call_openai_api (format transcript) language)
           (fun openai_error =>
              raise (HTTPException 500
                       (u "요약 생성 실패: " ++ str_exn w openai_error))) ;;
       email_sent <-
         (if truthy (Some email)
          then send_email email summary (Some meeting_info)
          else ret false) ;;
       ret {| success := true; summary := summary;
              emailSent := email_sent |})
    (fun e =>
       match e with
       | HTTPException _ _ => raise e
       | _ => raise (HTTPException 500 (u "요약 처리 실패: " ++ str_exn w e))
       end).
End with_world.

End clean_server.

(** ** backend/simple_http_server.py *)

Module simple_http_server.

Definition get_korean_prompt : str := working_server.get_korean_prompt.

Definition html_0 : str :=
  unlines
    [ u "";
      u "        <html>";
      u "        <body>";
      u "            <h1>🎯 AI 회의 요약 결과</h1>";
      u "            <div style=" ++ dq ++ u "white-space: pre-wrap; font-family: monospace;" ++ dq ++ u ">";
      u "" ].

Definition html_1 : str :=
  unlines
    [ u "";
      u "            </div>";
      u "            <hr>";
      u "            <p style=" ++ dq ++ u "font-size: 12px; color: #666;" ++ dq ++ u ">";
      u "                이 요약은 AI(OpenAI GPT-4)를 통해 자동 생성되었습니다.";
      u "            </p>";
      u "        </body>";
      u "        </html>";
      u "        " ].

Record request := Request {
  transcript : option str;
  language : option str;
  email : option str;
  meetingInfo : option (gmap str str)
}.

(** A JSON value of a response body, and what the handler writes: the
    status line of [_set_headers] and the object given to [json.dumps]. *)
Inductive jvalue : Type :=
| JBool (b : bool)
| JStr (s : str).

Record reply := Reply {
  status : Z;
  body : gmap str jvalue
}.

Section with_world.
Context (w : world).

Definition call_openai_api (transcript language : str) : M str :=
  match getenv w (u "OPENAI_API_KEY") with
  | None | Some [] =>
    raise (Exception (u "OPENAI_API_KEY가 설정되지 않았습니다"))
  | Some openai_api_key =>
    let url := u "https://api.openai.com/v1/chat/completions" in
    let headers :=
      [ (u "Content-Type", u "application/json");
        (u "Authorization", u "Bearer " ++ openai_api_key) ] in
    let prompt :=
      if bool_decide (language = u "korean")
      then get_korean_prompt
      else u "Summarize this meeting transcript:" in
    let payload :=
      {| model := u "gpt-4o";
         messages :=
           [ {| role := u "system";
                content := u "You are a professional meeting summarizer." |};
             {| role := u "user";
                content := prompt ++ nl ++ nl ++ transcript |} ];
         max_tokens := 2000;
         temperature := 3 # 10 |} in
    response <-
      post w {| url := url; headers := headers; json := payload;
                timeout := 60 |} ;;
    if (status_code response =? 200)%Z then
      content <- lift (choices_0_message_content response) ;;
      ret content
    else
      raise (Exception (u "OpenAI API 오류: " ++ text response))
  end.

Definition subject (meeting_info : option (gmap str str)) : str :=
  u "📋 회의 요약 - " ++
  match meeting_info with
  | Some d =>
    if dict_truthy meeting_info
    then dict_get d (u "date") (u "오늘") else u "오늘"
  | None => u "오늘"
  end.

(** The summary goes into the body as it is. *)
Definition html_content (summary : str) : str :=
  html_0 ++ summary ++ html_1.

Definition send_email (email summary : str)
    (meeting_info : option (gmap str str)) : M bool :=
  try_except
    (let smtp_server := u "smtp.gmail.com" in
     let smtp_port := 587%Z in
     match getenv w (u "GMAIL_USER"), getenv w (u "GMAIL_APP_PASSWORD") with
     | Some (c :: s), Some (c' :: s') =>
       let sender_email := c :: s in
       let sender_password := c' :: s' in
       html_part <- MIMEText (html_content summary) ;;
       let message :=
         {| Subject := subject meeting_info; From := sender_email;
            To := email; html_part := html_part |} in
       smtp w {| smtp_server := smtp_server; smtp_port := smtp_port;
                 login_user := sender_email;
                 login_password := sender_password;
                 sent_message := message |} ;;;
       ret true
     | _, _ => ret false
     end)
    (fun e => ret false).

(** [do_POST]: [request_data] is the outcome of reading [Content-Length]
    bytes and [json.loads]; both happen inside the handler's [try]. *)
Definition do_POST (path : str) (request_data : outcome request)
    : M reply :=
  if bool_decide (path = u "/api/summarize") then
    try_except
      (request_data <- lift request_data ;;
       let transcript := default [] (transcript request_data) in
       let language := default (u "korean") (language request_data) in
       let email := default [] (email request_data) in
       let meeting_info := default ∅ (meetingInfo request_data) in
       if negb (truthy (Some transcript)) || (length transcript <? 10)%nat
       then
         ret {| status := 400;
                body := {[ u "error" := JStr (u "텍스트가 너무 짧습니다") ]} |}
       else
         summary <- call_openai_api transcript language ;;
         email_sent <-
           (if truthy (Some email) && truthy (Some (strip email))
            then send_email (strip email) summary (Some meeting_info)
            else ret false) ;;
         ret {| status := 200;
                body := {[ u "success" := JBool true;
                           u "summary" := JStr summary;
                           u "emailSent" := JBool email_sent ]} |})
      (fun e =>
         ret {| status := 500;
                body := {[ u "success" := JBool false;
                           u "error" := JStr (str_exn w e) ]} |})
  else
    ret {| status := 404; body := {[ u "error" := JStr (u "Not Found") ]} |}.

(** [do_GET] *)
Definition do_GET (path : str) : reply :=
  if bool_decide (path = u "/") then
    {| status := 200;
       body := {[ u "message" := JStr (u "STT 요약 서비스가 정상 동작 중입니다");
                  u "status" := JStr (u "healthy") ]} |}
  else if bool_decide (path = u "/health") then
    let openai_key := getenv w (u "OPENAI_API_KEY") in
    let gmail_user := getenv w (u "GMAIL_USER") in
    let gmail_pass := getenv w (u "GMAIL_APP_PASSWORD") in
    {| status := 200;
       body := {[ u "status" := JStr (u "healthy");
                  u "openai_configured" := JBool (truthy openai_key);
                  u "gmail_configured"
                  := JBool (truthy (py_and gmail_user gmail_pass)) ]} |}
  else
    {| status := 404; body := {[ u "error" := JStr (u "Not Found") ]} |}.
End with_world.

End simple_http_server.

(** ** backend/simple_server.py *)

Module simple_server.

Definition OPENAI_API_URL : str :=
  u "https://api.openai.com/v1/chat/completions".

(** [get_korean_prompt()] *)
Definition get_korean_prompt : str :=
  unlines
    [ u "";
      u "다음은 회의 음성을 STT로 변환한 원본 텍스트입니다. ";
      u "아래 작업을 수행해주세요:";
      u "";
      u "1. STT 오류 보정: 명백한 인식 오류나 문법 오류를 자연스럽게 수정";
      u "2. 회의 요약 작성: ";
      u "   - 주요 논의 사항 (3-5개 핵심 포인트)";
      u "   - 결정된 사항";
      u "   - 액션 아이템 (담당자와 기한 포함 시)";
      u "   - 다음 회의 일정이나 후속 조치";
      u "";
      u "응답 형식:";
      u "## 📝 회의 요약";
      u "";
      u "### 🎯 주요 논의 사항";
      u "- 핵심 포인트 1";
      u "- 핵심 포인트 2";
      u "- ...";
      u "";
      u "### ✅ 결정 사항";
      u "- 결정된 내용들";
      u "";
      u "### 📋 액션 아이템";
      u "- [ ] 작업 내용 (담당자, 기한)";
      u "- [ ] 작업 내용 (담당자, 기한)";
      u "";
      u "### 📅 후속 조치";
      u "- 다음 회의 일정 등";
      u "";
      u "원본 STT 텍스트:";
      u "" ].

Definition html_0 : str :=
  unlines
    [ u "";
      u "        <!DOCTYPE html>";
      u "        <html>";
      u "        <head>";
      u "            <meta charset=" ++ dq ++ u "utf-8" ++ dq ++ u ">";
      u "        </head>";
      u "        <body>";
      u "            <h2>🎯 AI 회의 요약 결과</h2>";
      u "            <div style=" ++ dq ++ u "white-space: pre-wrap; font-family: monospace;" ++ dq ++ u ">";
      u "" ].

Definition html_1 : str :=
  unlines
    [ u "";
      u "            </div>";
      u "            <hr>";
      u "            <p style=" ++ dq ++ u "font-size: 12px; color: #666;" ++ dq ++ u ">";
      u "                이 요약은 AI(OpenAI GPT-4)를 통해 자동 생성되었습니다.";
      u "            </p>";
      u "        </body>";
      u "        </html>";
      u "        " ].


Record request := Request {
  transcript : option str;
  language : option str;
  email : option str;
  meetingInfo : option (gmap str str)
}.

(** What the view returns: the status (200 when [jsonify] is returned
    alone) and the object given to [jsonify]. *)
Record reply := Reply {
  status : Z;
  body : gmap str jval
}.

Section with_world.
Context (w : world).

Definition call_openai_api (transcript language : str) : M str :=
  match getenv w (u "OPENAI_API_KEY") with
  | None | Some [] =>
    raise (ValueError (u "OPENAI_API_KEY가 설정되지 않았습니다"))
  | Some openai_api_key =>
    let headers :=
      [ (u "Content-Type", u "application/json");
        (u "Authorization", u "Bearer " ++ openai_api_key) ] in
    let prompt :=
      if bool_decide (language = u "korean")
      then get_korean_prompt
      else u "Summarize this meeting transcript:" in
    let payload :=
      {| model := u "gpt-4o";
         messages :=
           [ {| role := u "system";
                content := u "You are a professional meeting summarizer." |};
             {| role := u "user";
                content := prompt ++ nl ++ nl ++ transcript |} ];
         max_tokens := 2000;
         temperature := 3 # 10 |} in
    response <-
      post w {| url := OPENAI_API_URL; headers := headers; json := payload;
                timeout := 60 |} ;;
    raise_for_status response ;;;
    lift (choices_0_message_content response)
  end.

Definition subject (meeting_info : option (gmap str str)) : str :=
  u "📋 회의 요약 - " ++
  match meeting_info with
  | Some d =>
    if dict_truthy meeting_info
    then dict_get d (u "date") (u "오늘") else u "오늘"
  | None => u "오늘"
  end.

Definition html_content (summary : str) : str :=
  html_0 ++ summary ++ html_1.

(** [send_email] returns a pair: whether the mail went out, and why. *)
Definition send_email (email summary : str)
    (meeting_info : option (gmap str str)) : M (bool * str) :=
  try_except
    (let smtp_server := u "smtp.gmail.com" in
     let smtp_port := 587%Z in
     match getenv w (u "GMAIL_USER"), getenv w (u "GMAIL_APP_PASSWORD") with
     | Some (c :: s), Some (c' :: s') =>
       let sender_email := c :: s in
       let sender_password := c' :: s' in
       html_part <- MIMEText (html_content summary) ;;
       let message :=
         {| Subject := subject meeting_info; From := sender_email;
            To := email; html_part := html_part |} in
       smtp w {| smtp_server := smtp_server; smtp_port := smtp_port;
                 login_user := sender_email;
                 login_password := sender_password;
                 sent_message := message |} ;;;
       ret (true, u "메일 발송 완료")
     | _, _ => ret (false, u "Gmail 인증 정보가 설정되지 않았습니다")
     end)
    (fun e => ret (false, u "메일 발송 실패: " ++ str_exn w e)).

(** [summarize]: [data] is the outcome of [request.json], read inside the
    view's [try]. *)
Definition summarize (data : outcome request) : M reply :=
  try_except
    (data <- lift data ;;
     let transcript := default [] (transcript data) in
     let language := default (u "korean") (language data) in
     let email := default [] (email data) in
     let meeting_info := default ∅ (meetingInfo data) in
     if negb (truthy (Some transcript)) || (length transcript <? 10)%nat
     then
       ret {| status := 400;
              body := {[ u "success" := VBool false;
                         u "error" := VStr (u "텍스트가 너무 짧습니다") ]} |}
     else
       summary <- call_openai_api transcript language ;;
       sent <-
         (if truthy (Some email)
          then send_email email summary (Some meeting_info)
          else ret (false, u "이메일 주소가 제공되지 않음")) ;;
       let email_success := fst sent in
       let email_message := snd sent in
       ret {| status := 200;
              body := {[ u "success" := VBool true;
                         u "summary" := VStr summary;
                         u "emailSent" := VBool email_success;
                         u "emailMessage" := VStr email_message ]} |})
    (fun e =>
       ret {| status := 500;
              body := {[ u "success" := VBool false;
                         u "error" := VStr (str_exn w e) ]} |}).
End with_world.

End simple_server.

(** ** Scenarios

    Concrete worlds and requests on which the handlers are run: a
    configured process whose provider stub answers 200 with a completion,
    and variants with the relay down, without mail credentials and without
    the provider key. *)

Module scenario.

Definition transcript : str :=
  u "Alice and Bob discussed the Q3 roadmap and agreed to ship by Friday.".

Definition completion : str := u "## 요약" ++ nl ++ u "...".

Definition stub_response (content : str) : response :=
  {| status_code := 200; text := []; http_error_msg := [];
     choices_0_message_content := Return content |}.

Definition provider_key : gmap str str :=
  {[ u "OPENAI_API_KEY" := u "sk-test" ]}.

Definition mail_credentials : gmap str str :=
  {[ u "GMAIL_USER" := u "bot@example.com";
     u "GMAIL_APP_PASSWORD" := u "app-password" ]}.

Definition world_with (env : gmap str str) (content : str)
    (relay : option exn) : world :=
  {| environ := env;
     requests_post := fun _ => Return (stub_response content);
     smtp_transaction := fun _ => relay;
     str_HTTPException := fun _ detail => detail |}.

Definition world_ok : world :=
  world_with (provider_key ∪ mail_credentials) completion None.

Definition world_relay_down : world :=
  world_with (provider_key ∪ mail_credentials) completion
    (Some (Exception (u "Connection refused"))).

Definition world_no_mail_credentials : world :=
  world_with provider_key completion None.

Definition world_no_provider_key : world :=
  world_with mail_credentials completion None.

(** A provider whose completion carries markup. *)
Definition world_markup : world :=
  world_with (provider_key ∪ mail_credentials)
    (u "<script>alert(1)</script>") None.

(** A provider that answers with the given status and body text, and a
    provider that cannot be reached. *)
Definition world_provider_status (code : Z) (body_text : str) : world :=
  {| environ := provider_key ∪ mail_credentials;
     requests_post := fun _ =>
       Return {| status_code := code; text := body_text;
                 http_error_msg := u "Server Error";
                 choices_0_message_content := Return completion |};
     smtp_transaction := fun _ => None;
     str_HTTPException := fun _ detail => detail |}.

Definition world_provider_unreachable : world :=
  {| environ := provider_key ∪ mail_credentials;
     requests_post :=
       fun _ => Raise (RequestException (u "Connection refused"));
     smtp_transaction := fun _ => None;
     str_HTTPException := fun _ detail => detail |}.

(** The same process with other secrets of the same shape. *)
Definition world_other_secrets : world :=
  world_with
    ({[ u "OPENAI_API_KEY" := u "sk-prod" ]}
     ∪ {[ u "GMAIL_USER" := u "bot@example.org";
          u "GMAIL_APP_PASSWORD" := u "another-password" ]})
    completion None.

End scenario.

(** ** Observing a run *)

(** The SMTP sessions of a trace, in order. *)
Definition mail_calls (t : list event) : list smtp_session :=
  omap (fun e => match e with Smtp s => Some s | Post _ => None end) t.

(** The contents of the messages of a provider request whose role is
    [user]. *)
Definition user_contents (p : post_request) : list str :=
  content <$> filter (fun m => role m = u "user") (messages (json p)).

(** [summary.replace('<', '&lt;').replace('>', '&gt;')], the expression the
    escaping variants embed in the mail body. *)
Definition escaped (summary : str) : str :=
  replace 62 (u "&gt;") (replace 60 (u "&lt;") summary).

(** The request the variants hand to [requests.post], as a function of the
    configured key and of the messages. *)
Definition chat_completion_request (key : str) (msgs : list message)
    : post_request :=
  {| url := u "https://api.openai.com/v1/chat/completions";
     headers :=
       [ (u "Content-Type", u "application/json");
         (u "Authorization", u "Bearer " ++ key) ];
     json :=
       {| model := u "gpt-4o"; messages := msgs;
          max_tokens := 2000; temperature := 3 # 10 |};
     timeout := 60 |}.

(** * Properties *)

#[global] Arguments u : simpl never.
#[global] Arguments unlines : simpl never.

(** Runs the monad's own operations and nothing else, so that the text
    constants of the sources stay folded. *)
Ltac run_handler :=
  cbn [fst snd bind try_except ret raise lift app].

(** Settles [length t <? 10] for a transcript known to be long enough. *)
Ltac long_enough H :=
  match goal with
  | |- context [(length ?t <? 10)] =>
    replace (length t <? 10) with false
      by (symmetry; apply Nat.ltb_ge; simpl in H |- *; lia)
  end.

(** ** Text *)

Lemma startswith_app (p s : str) : startswith (p ++ s) p = true.
Proof.
  induction p as [|c p IH]; [done|].
  simpl. by rewrite N.eqb_refl, IH.
Qed.

Lemma replace_app (old : char) (new a b : str) :
  replace old new (a ++ b) = replace old new a ++ replace old new b.
Proof.
  induction a as [|c a IH]; [done|].
  simpl. by rewrite IH, <- app_assoc.
Qed.

Lemma replace_not_elem (old : char) (new s : str) :
  old ∉ new → old ∉ replace old new s.
Proof.
  intros Hnew. induction s as [|c s IH]; simpl.
  - apply not_elem_of_nil.
  - rewrite elem_of_app. intros [H|H]; [|done].
    destruct (N.eqb_spec c old) as [->|Hne]; [done|].
    apply list_elem_of_singleton in H. congruence.
Qed.

Lemma replace_keeps_absent (old c : char) (new s : str) :
  c ∉ new → c ∉ s → c ∉ replace old new s.
Proof.
  intros Hnew. induction s as [|d s IH]; simpl; [done|].
  rewrite not_elem_of_cons. intros [Hd Hs].
  rewrite elem_of_app. intros [H|H]; [|by apply IH].
  destruct (d =? old)%N; [done|].
  apply list_elem_of_singleton in H. congruence.
Qed.

Lemma lt_entity : u "&lt;" = [38; 108; 116; 59]%N.
Proof. vm_compute. reflexivity. Qed.

Lemma gt_entity : u "&gt;" = [38; 103; 116; 59]%N.
Proof. vm_compute. reflexivity. Qed.

(** No ['<'] and no ['>'] is left in an escaped summary. *)
Lemma escaped_has_no_angle_bracket (summary : str) :
  (60%N ∉ escaped summary) ∧ (62%N ∉ escaped summary).
Proof.
  assert (∀ c : char, c ≠ 38%N → c ≠ 108%N → c ≠ 103%N → c ≠ 116%N →
          c ≠ 59%N → (c ∉ u "&lt;") ∧ (c ∉ u "&gt;")) as Hentity.
  { intros c ? ? ? ? ?. rewrite lt_entity, gt_entity.
    rewrite !not_elem_of_cons. repeat split; try done; apply not_elem_of_nil. }
  destruct (Hentity 60%N) as [Hlt_lt Hlt_gt]; [done..|].
  destruct (Hentity 62%N) as [Hgt_lt Hgt_gt]; [done..|].
  unfold escaped. split.
  - apply replace_keeps_absent; [done|]. by apply replace_not_elem.
  - by apply replace_not_elem.
Qed.

Lemma escaped_app (a b : str) : escaped (a ++ b) = escaped a ++ escaped b.
Proof. unfold escaped. by rewrite !replace_app. Qed.

Lemma escaped_script : escaped (u "<script>") = u "&lt;script&gt;".
Proof. vm_compute. reflexivity. Qed.

Lemma truthy_false (o : option str) :
  truthy o = false ↔ o = None ∨ o = Some [].
Proof. destruct o as [[|c s]|]; simpl; intuition congruence. Qed.

(** ** Outcomes and traces *)

Lemma fst_bind {A B} (m : M A) (k : A -> M B) :
  fst (bind m k)
  = match fst m with Return a => fst (k a) | Raise e => Raise e end.
Proof. by destruct m as [[a|e] t]. Qed.

Lemma snd_bind {A B} (m : M A) (k : A -> M B) :
  snd (bind m k)
  = snd m ++ match fst m with Return a => snd (k a) | Raise _ => [] end.
Proof. destruct m as [[a|e] t]; simpl; [done|by rewrite app_nil_r]. Qed.

Lemma bind_ret_l {A B} (a : A) (k : A -> M B) : bind (ret a) k = k a.
Proof. unfold bind, ret. by destruct (k a). Qed.

Lemma fst_try_except {A} (m : M A) (h : exn -> M A) :
  fst (try_except m h)
  = match fst m with Return a => Return a | Raise e => fst (h e) end.
Proof. by destruct m as [[a|e] t]. Qed.

Lemma snd_try_except {A} (m : M A) (h : exn -> M A) :
  snd (try_except m h)
  = snd m ++ match fst m with Return _ => [] | Raise e => snd (h e) end.
Proof. destruct m as [[a|e] t]; simpl; [by rewrite app_nil_r|done]. Qed.


Lemma system_is_not_user : u "system" ≠ u "user".
Proof. vm_compute. discriminate. Qed.

Lemma user_contents_two (p : post_request) (c c' : str) :
  messages (json p)
  = [ {| role := u "system"; content := c |};
      {| role := u "user"; content := c' |} ] →
  user_contents p = [c'].
Proof.
  intros E. unfold user_contents. rewrite E.
  rewrite filter_cons_False by apply system_is_not_user.
  by rewrite filter_cons_True.
Qed.

Lemma dict_truthy_insert (d : gmap str str) (k v : str) :
  dict_truthy (Some (<[k:=v]> d)) = true.
Proof.
  unfold dict_truthy. rewrite bool_decide_eq_false_2; [done|].
  apply insert_non_empty.
Qed.

(** ** Facts about [working_server] *)

(** ** Encoding the HTML part *)

Lemma unencodable_None (text : str) (start : nat) :
  unencodable text start = None ↔ encodable text = true.
Proof.
  revert start. induction text as [|c text IH]; intros start; [done|].
  simpl. destruct (is_surrogate c); simpl; [split; discriminate|apply IH].
Qed.

(** [MIMEText] returns its text or raises, by whether the text holds a
    surrogate. *)
Lemma MIMEText_encodable (text : str) :
  encodable text = true → MIMEText text = ret text.
Proof.
  intros H%(unencodable_None text 0). unfold MIMEText. by rewrite H.
Qed.

Lemma MIMEText_unencodable (text : str) :
  encodable text = false →
  ∃ what,
    unencodable text 0 = Some what
    ∧ MIMEText text
      = raise (UnicodeEncodeError
                 (u "'utf-8' codec can't encode " ++ what
                  ++ u ": surrogates not allowed")).
Proof.
  intros H. unfold MIMEText.
  destruct (unencodable text 0) as [what|] eqn:E; [by exists what|].
  apply unencodable_None in E. congruence.
Qed.

Lemma MIMEText_cases (text : str) :
  (encodable text = true ∧ MIMEText text = ret text)
  ∨ (encodable text = false
     ∧ ∃ msg, MIMEText text = raise (UnicodeEncodeError msg)).
Proof.
  destruct (encodable text) eqn:E.
  - left. by rewrite MIMEText_encodable.
  - right. split; [done|].
    destruct (MIMEText_unencodable text E) as (what & _ & ->). by eexists.
Qed.

Lemma encodable_app (s t : str) :
  encodable (s ++ t) = encodable s && encodable t.
Proof. apply forallb_app. Qed.

Lemma encodable_replace (old : char) (new s : str) :
  is_surrogate old = false → encodable new = true →
  encodable (replace old new s) = encodable s.
Proof.
  intros Hold Hnew. induction s as [|c s IH]; [done|].
  cbn [replace]. rewrite encodable_app, IH.
  change (encodable (c :: s)) with (negb (is_surrogate c) && encodable s).
  destruct (N.eqb_spec c old) as [->|_].
  - by rewrite Hnew, Hold.
  - change (encodable [c]) with (negb (is_surrogate c) && true).
    by rewrite andb_true_r.
Qed.

(** Escaping neither adds nor removes a surrogate. *)
Lemma encodable_escaped (s : str) : encodable (escaped s) = encodable s.
Proof.
  unfold escaped.
  rewrite !encodable_replace; [done|by vm_compute..].
Qed.

Section working_server_facts.
Context (w : world).
Import working_server.

Lemma working_call_openai_api_no_key (t l : str) :
  truthy (getenv w (u "OPENAI_API_KEY")) = false →
  call_openai_api w t l
  = (Raise (HTTPException 500 (u "OPENAI_API_KEY가 설정되지 않았습니다")), []).
Proof.
  intros [E|E]%truthy_false; unfold call_openai_api; by rewrite E.
Qed.

(** With the key configured [call_openai_api] makes exactly one request,
    whose user message is the selected prompt, two line feeds and the
    transcript. *)
Lemma working_call_openai_api_request (t l : str) :
  truthy (getenv w (u "OPENAI_API_KEY")) = true →
  ∃ p, snd (call_openai_api w t l) = [Post p]
    ∧ messages (json p)
      = [ {| role := u "system"; content := system_content |};
          {| role := u "user";
             content :=
               (if bool_decide (l = u "korean")
                then get_korean_prompt else get_english_prompt)
               ++ nl ++ nl ++ t |} ].
Proof.
  intros Hkey. unfold call_openai_api.
  destruct (getenv w (u "OPENAI_API_KEY")) as [[|c key]|]; [done| |done].
  eexists. split.
  - rewrite snd_bind. unfold post at 1. simpl snd at 1. simpl fst.
    destruct (requests_post w _) as [resp|e]; [|done].
    destruct (status_code resp =? 200)%Z; [|done].
    by destruct (choices_0_message_content resp).
  - done.
Qed.

Lemma working_call_openai_api_no_mail (t l : str) :
  mail_calls (snd (call_openai_api w t l)) = [].
Proof.
  destruct (truthy (getenv w (u "OPENAI_API_KEY"))) eqn:Hkey.
  - destruct (working_call_openai_api_request t l) as (p & -> & _); done.
  - by rewrite working_call_openai_api_no_key.
Qed.

(** With a date the [meta-info] block is rendered, and a field that is
    absent renders as the empty text of its [.get]. *)
Lemma working_meta_info_with_date (d : gmap str str) (date : str) :
  meta_info (Some (<[u "date":=date]> d))
  = ret (meta_0 ++ date
         ++ meta_1 ++ dict_get (<[u "date":=date]> d) (u "startTime") []
         ++ meta_2 ++ dict_get (<[u "date":=date]> d) (u "duration") []
         ++ meta_3 ++ dict_get (<[u "date":=date]> d) (u "segmentCount") []
         ++ meta_4).
Proof.
  unfold meta_info. rewrite dict_truthy_insert.
  unfold dict_getitem. by rewrite lookup_insert_eq.
Qed.

Lemma working_meta_info_trace (mi : option (gmap str str)) :
  snd (meta_info mi) = [].
Proof.
  unfold meta_info. destruct mi as [d|]; [|done].
  destruct (dict_truthy (Some d)); [|done].
  unfold dict_getitem. by destruct (d !! u "date").
Qed.

(** Without a date, a non-empty [meeting_info] makes the subscript raise;
    [send_email] swallows the [KeyError] and no mail is sent, whatever the
    configuration. *)
Lemma working_send_email_missing_date (email summary : str)
    (d : gmap str str) :
  d ≠ ∅ → d !! u "date" = None →
  send_email w email summary (Some d) = (Return false, []).
Proof.
  intros Hne Hdate. unfold send_email.
  destruct (getenv w (u "GMAIL_USER")) as [[|c user]|]; [done| |done].
  destruct (getenv w (u "GMAIL_APP_PASSWORD")) as [[|c' pw]|];
    [done| |done].
  unfold html_content, meta_info, dict_truthy.
  rewrite bool_decide_eq_false_2 by done.
  unfold dict_getitem. by rewrite Hdate.
Qed.

(** [send_email] never raises.  It returns [False] without reaching the
    relay, or opens one session addressed to [email], with the configured
    credentials, and returns whether that session went through. *)
Lemma working_send_email_cases (email summary : str)
    (mi : option (gmap str str)) :
  send_email w email summary mi = (Return false, [])
  ∨ ∃ s,
      truthy (getenv w (u "GMAIL_USER")) = true
      ∧ truthy (getenv w (u "GMAIL_APP_PASSWORD")) = true
      ∧ To (sent_message s) = email
      ∧ send_email w email summary mi
        = (Return match smtp_transaction w s with
                  | None => true
                  | Some _ => false
                  end, [Smtp s]).
Proof.
  unfold send_email.
  destruct (getenv w (u "GMAIL_USER")) as [[|c user]|]; [by left| |by left].
  destruct (getenv w (u "GMAIL_APP_PASSWORD")) as [[|c' pw]|];
    [by left| |by left].
  unfold html_content.
  pose proof (working_meta_info_trace mi) as Htr.
  destruct (meta_info mi) as [[meta|e] tr]; simpl in Htr; subst tr;
    [|by left].
  run_handler.
  match goal with |- context [MIMEText ?body] =>
    destruct (MIMEText_cases body) as [[_ ->]|[_ [msg ->]]]
  end; [|by left].
  right. run_handler.
  match goal with |- context [smtp w ?s0] => exists s0 end.
  split; [done|]. split; [done|]. split; [done|].
  unfold smtp. by destruct (smtp_transaction w _).
Qed.

Lemma working_summarize_invalid (r : request) :
  length (default [] (transcript r)) < 10 →
  summarize_and_email w r
  = (Raise (HTTPException 400 (u "텍스트가 너무 짧습니다")), []).
Proof.
  intros Hr. unfold summarize_and_email.
  apply Nat.ltb_lt in Hr. by rewrite Hr, orb_true_r.
Qed.

(** Past validation the handler is the provider step followed by the
    guarded mail step. *)
Lemma working_summarize_valid (r : request) :
  10 ≤ length (default [] (transcript r)) →
  summarize_and_email w r
  = try_except
      (summary <-
         call_openai_api w (default [] (transcript r))
           (default (u "korean") (language r)) ;;
       email_sent <-
         (if truthy (Some (default [] (email r)))
             && truthy (Some (strip (default [] (email r))))
          then send_email w (strip (default [] (email r))) summary
                 (Some (default ∅ (meetingInfo r)))
          else ret false) ;;
       ret {| success := true; summary := summary;
              emailSent := email_sent |})
      (fun e =>
         match e with
         | HTTPException _ _ => raise e
         | _ => raise (HTTPException 500 (u "요약 처리 실패: " ++ str_exn w e))
         end).
Proof.
  intros Hlen. unfold summarize_and_email. long_enough Hlen.
  by destruct (default [] (transcript r)); [simpl in Hlen; lia|].
Qed.

(** Once the provider has answered, the handler returns the summary
    unchanged, whatever the mail step does. *)
Lemma working_summarize_returns_summary (r : request) (summ : str)
    (tc : list event) :
  10 ≤ length (default [] (transcript r)) →
  call_openai_api w (default [] (transcript r))
    (default (u "korean") (language r)) = (Return summ, tc) →
  ∃ b tm,
    (if truthy (Some (default [] (email r)))
        && truthy (Some (strip (default [] (email r))))
     then send_email w (strip (default [] (email r))) summ
            (Some (default ∅ (meetingInfo r)))
     else ret false) = (Return b, tm)
    ∧ summarize_and_email w r
      = (Return {| success := true; summary := summ; emailSent := b |},
         tc ++ tm).
Proof.
  intros Hlen Hcall. rewrite working_summarize_valid by done.
  rewrite Hcall. run_handler.
  set (dispatch := if _ && _ then _ else _).
  assert (∃ b tm, dispatch = (Return b, tm)) as (b & tm & Hd).
  { subst dispatch. destruct (_ && _); [|by eexists _, _].
    destruct (working_send_email_cases (strip (default [] (email r))) summ
                (Some (default ∅ (meetingInfo r)))) as [E|(s & _ & _ & _ & E)];
      rewrite E; by eexists _, _. }
  exists b, tm. split; [done|].
  rewrite Hd. run_handler. by rewrite app_nil_r.
Qed.

(** A provider failure ends the request with an [HTTPException] and
    without any mail. *)
Lemma working_summarize_provider_failure (r : request) (e : exn)
    (tc : list event) :
  10 ≤ length (default [] (transcript r)) →
  call_openai_api w (default [] (transcript r))
    (default (u "korean") (language r)) = (Raise e, tc) →
  ∃ status detail,
    summarize_and_email w r = (Raise (HTTPException status detail), tc).
Proof.
  intros Hlen Hcall. rewrite working_summarize_valid by done.
  rewrite Hcall. run_handler.
  destruct e; run_handler; rewrite app_nil_r; by eexists _, _.
Qed.

(** Every way the handler can end, seen from the mail step. *)
Lemma working_summarize_cases (r : request) :
  (∃ status detail tc,
      summarize_and_email w r = (Raise (HTTPException status detail), tc)
      ∧ mail_calls tc = [])
  ∨ (∃ summ tc b tm,
      10 ≤ length (default [] (transcript r))
      ∧ call_openai_api w (default [] (transcript r))
          (default (u "korean") (language r)) = (Return summ, tc)
      ∧ (if truthy (Some (default [] (email r)))
            && truthy (Some (strip (default [] (email r))))
         then send_email w (strip (default [] (email r))) summ
                (Some (default ∅ (meetingInfo r)))
         else ret false) = (Return b, tm)
      ∧ summarize_and_email w r
        = (Return {| success := true; summary := summ; emailSent := b |},
           tc ++ tm)).
Proof.
  destruct (decide (length (default [] (transcript r)) < 10)) as [Hlen|Hlen].
  - left. rewrite working_summarize_invalid by done. by eexists _, _, _.
  - assert (10 ≤ length (default [] (transcript r))) as Hlen' by lia.
    pose proof (working_call_openai_api_no_mail (default [] (transcript r))
                  (default (u "korean") (language r))) as Hmail.
    destruct (call_openai_api w _ _) as [[summ|e] tc] eqn:Hcall.
    + right.
      destruct (working_summarize_returns_summary r summ tc)
        as (b & tm & Hd & Hs); [done..|].
      by exists summ, tc, b, tm.
    + left.
      destruct (working_summarize_provider_failure r e tc)
        as (status & detail & Hs); [done..|].
      by exists status, detail, tc.
Qed.

End working_server_facts.

(** ** Facts about [main] *)

Section main_facts.
Context (w : world).
Import main.

Lemma main_call_openai_api_no_key (msgs : list message) (mdl : str) :
  truthy (getenv w (u "OPENAI_API_KEY")) = false →
  call_openai_api w msgs mdl
  = (Raise (ValueError (u "OPENAI_API_KEY 환경변수가 설정되지 않았습니다")), []).
Proof.
  intros [E|E]%truthy_false; unfold call_openai_api; by rewrite E.
Qed.

Lemma main_call_openai_api_calls (msgs : list message) (mdl : str) :
  truthy (getenv w (u "OPENAI_API_KEY")) = true →
  ∃ p, snd (call_openai_api w msgs mdl) = [Post p] ∧ messages (json p) = msgs.
Proof.
  intros Hkey. unfold call_openai_api.
  destruct (getenv w (u "OPENAI_API_KEY")) as [[|c key]|]; [done| |done].
  eexists. split.
  - rewrite snd_try_except, snd_bind, fst_bind.
    unfold post at 1 2 3. simpl fst. simpl snd at 1.
    destruct (requests_post w _) as [resp|e]; [|by destruct e].
    rewrite snd_bind, fst_bind. unfold raise_for_status.
    destruct (_ && _); simpl; [done|].
    by destruct (choices_0_message_content resp) as [s|[]].
  - done.
Qed.

Lemma main_generate_summary_no_key (t l : str) :
  truthy (getenv w (u "OPENAI_API_KEY")) = false →
  generate_summary w t l
  = (Raise (HTTPException 500
              (u "요약 생성 실패: "
               ++ u "OPENAI_API_KEY 환경변수가 설정되지 않았습니다")), []).
Proof.
  intros Hkey. unfold generate_summary.
  by rewrite main_call_openai_api_no_key.
Qed.

Lemma main_generate_summary_request (t l : str) :
  truthy (getenv w (u "OPENAI_API_KEY")) = true →
  ∃ p sys, snd (generate_summary w t l) = [Post p]
    ∧ messages (json p)
      = [ {| role := u "system"; content := sys |};
          {| role := u "user";
             content :=
               (if bool_decide (l = u "korean")
                then get_korean_prompt else get_english_prompt)
               ++ nl ++ nl ++ u "**회의 내용:**" ++ nl ++ t |} ].
Proof.
  intros Hkey. unfold generate_summary.
  edestruct main_call_openai_api_calls as (p & Hp & Hmsg); [done|].
  exists p. eexists. rewrite snd_try_except, Hp. split; [|exact Hmsg].
  by destruct (fst (call_openai_api w _ _)).
Qed.


(** [generate_summary] returns the completion or raises with status 500. *)
Lemma main_generate_summary_outcome (t l : str) :
  ∃ tc,
    (∃ summ, generate_summary w t l = (Return summ, tc))
    ∨ (∃ detail,
         generate_summary w t l = (Raise (HTTPException 500 detail), tc)).
Proof.
  unfold generate_summary.
  destruct (call_openai_api w _ _) as [[summ|e] tc]; run_handler.
  - exists tc. left. by exists summ.
  - eexists. right. by eexists.
Qed.

Lemma main_send_email_configured (email summary : str)
    (mi : option MeetingInfo) :
  truthy (getenv w (u "GMAIL_USER")) = true →
  truthy (getenv w (u "GMAIL_APP_PASSWORD")) = true →
  encodable (html_content summary mi) = true →
  ∃ s,
    To (sent_message s) = email
    ∧ html_part (sent_message s) = html_content summary mi
    ∧ send_email w email summary mi
      = (match smtp_transaction w s with
         | None => Return true
         | Some e =>
           Raise (HTTPException 500 (u "이메일 발송 실패: " ++ str_exn w e))
         end, [Smtp s]).
Proof.
  intros Huser Hpw Hbody. unfold send_email.
  destruct (getenv w (u "GMAIL_USER")) as [[|c user]|]; [done| |done].
  destruct (getenv w (u "GMAIL_APP_PASSWORD")) as [[|c' pw]|];
    [done| |done].
  rewrite MIMEText_encodable by done. run_handler.
  match goal with |- context [smtp w ?s0] => exists s0 end.
  split; [done|]. split; [done|].
  unfold smtp. by destruct (smtp_transaction w _).
Qed.

(** A body UTF-8 cannot encode stops [send_email] at [MIMEText], before
    the relay is contacted. *)
Lemma main_send_email_unencodable (email summary : str)
    (mi : option MeetingInfo) :
  truthy (getenv w (u "GMAIL_USER")) = true →
  truthy (getenv w (u "GMAIL_APP_PASSWORD")) = true →
  encodable (html_content summary mi) = false →
  ∃ what,
    unencodable (html_content summary mi) 0 = Some what
    ∧ send_email w email summary mi
      = (Raise (HTTPException 500
                  (u "이메일 발송 실패: "
                   ++ u "'utf-8' codec can't encode " ++ what
                   ++ u ": surrogates not allowed")), []).
Proof.
  intros Huser Hpw Hbody. unfold send_email.
  destruct (getenv w (u "GMAIL_USER")) as [[|c user]|]; [done| |done].
  destruct (getenv w (u "GMAIL_APP_PASSWORD")) as [[|c' pw]|];
    [done| |done].
  destruct (MIMEText_unencodable _ Hbody) as (what & Hwhat & ->).
  by exists what.
Qed.

Lemma main_send_email_not_configured (email summary : str)
    (mi : option MeetingInfo) :
  truthy (getenv w (u "GMAIL_USER")) = false
  ∨ truthy (getenv w (u "GMAIL_APP_PASSWORD")) = false →
  send_email w email summary mi
  = (Raise (HTTPException 500
              (u "이메일 발송 실패: " ++ u "Gmail 인증 정보가 설정되지 않았습니다")),
     []).
Proof.
  intros H. unfold send_email.
  destruct (getenv w (u "GMAIL_USER")) as [[|c user]|]; [done| |done].
  destruct (getenv w (u "GMAIL_APP_PASSWORD")) as [[|c' pw]|];
    [done| |done].
  by destruct H.
Qed.

(** [send_email] returns [True] or raises with status 500. *)
Lemma main_send_email_outcome (email summary : str)
    (mi : option MeetingInfo) :
  ∃ tm,
    send_email w email summary mi = (Return true, tm)
    ∨ (∃ detail,
         send_email w email summary mi
         = (Raise (HTTPException 500 detail), tm)).
Proof.
  destruct (truthy (getenv w (u "GMAIL_USER"))) eqn:Huser;
    [destruct (truthy (getenv w (u "GMAIL_APP_PASSWORD"))) eqn:Hpw|].
  - destruct (encodable (html_content summary mi)) eqn:Hbody.
    + destruct (main_send_email_configured email summary mi)
        as (s & _ & _ & E); [done..|].
      exists [Smtp s]. rewrite E.
      destruct (smtp_transaction w s); [right; by eexists|by left].
    + destruct (main_send_email_unencodable email summary mi)
        as (what & _ & E); [done..|].
      exists []. right. by eexists.
  - exists []. right. eexists. apply main_send_email_not_configured. by right.
  - exists []. right. eexists. apply main_send_email_not_configured. by left.
Qed.

Lemma main_summarize_invalid (r : SummaryRequest) :
  length (transcript r) < 10 ∨ strip (transcript r) = [] →
  ∃ detail,
    summarize_and_email w r = (Raise (HTTPException 400 detail), []).
Proof.
  intros Hr. unfold summarize_and_email.
  destruct (truthy (Some (strip (transcript r)))) eqn:Hblank; simpl.
  - destruct Hr as [Hlen|Hstrip].
    + apply Nat.ltb_lt in Hlen. rewrite Hlen. by eexists.
    + rewrite Hstrip in Hblank. done.
  - by eexists.
Qed.

(** Past validation the handler is the provider step followed, without
    any test on [email], by [send_email]. *)
Lemma main_summarize_valid (r : SummaryRequest) :
  10 ≤ length (transcript r) → strip (transcript r) ≠ [] →
  summarize_and_email w r
  = try_except
      (summary <- generate_summary w (transcript r) (language r) ;;
       email_sent <- send_email w (email r) summary (meetingInfo r) ;;
       ret {| success := true; summary := Some summary;
              correctedTranscript := None; emailSent := email_sent;
              error := None |})
      (fun e =>
         match e with
         | HTTPException _ _ => raise e
         | _ =>
           ret {| success := false; summary := None;
                  correctedTranscript := None; emailSent := false;
                  error := Some (str_exn w e) |}
         end).
Proof.
  intros Hlen Hblank. unfold summarize_and_email. long_enough Hlen.
  by destruct (strip (transcript r)).
Qed.

(** After the summary, the handler ends as [send_email] ends. *)
Lemma main_summarize_after_summary (r : SummaryRequest) (summ : str)
    (tc : list event) :
  10 ≤ length (transcript r) → strip (transcript r) ≠ [] →
  generate_summary w (transcript r) (language r) = (Return summ, tc) →
  (∃ tm,
      send_email w (email r) summ (meetingInfo r) = (Return true, tm)
      ∧ summarize_and_email w r
        = (Return {| success := true; summary := Some summ;
                     correctedTranscript := None; emailSent := true;
                     error := None |}, tc ++ tm))
  ∨ (∃ detail tm,
      send_email w (email r) summ (meetingInfo r)
      = (Raise (HTTPException 500 detail), tm)
      ∧ summarize_and_email w r
        = (Raise (HTTPException 500 detail), tc ++ tm)).
Proof.
  intros Hlen Hblank Hgen. rewrite main_summarize_valid by done.
  rewrite Hgen. run_handler.
  destruct (main_send_email_outcome (email r) summ (meetingInfo r))
    as (tm & [E|(detail & E)]); rewrite E; run_handler; rewrite app_nil_r.
  - left. by exists tm.
  - right. by exists detail, tm.
Qed.

(** The handler leaves with an [HTTPException] or returns a success whose
    [emailSent] is true: its [success = False] answer is never produced. *)
Lemma main_summarize_outcomes (r : SummaryRequest) :
  ∃ t,
    (∃ status detail,
        summarize_and_email w r = (Raise (HTTPException status detail), t))
    ∨ (∃ summ,
         summarize_and_email w r
         = (Return {| success := true; summary := Some summ;
                      correctedTranscript := None; emailSent := true;
                      error := None |}, t)).
Proof.
  destruct (decide (10 ≤ length (transcript r) ∧ strip (transcript r) ≠ []))
    as [[Hlen Hblank]|Hinvalid].
  - destruct (main_generate_summary_outcome (transcript r) (language r))
      as (tc & [(summ & Hgen)|(detail & Hgen)]).
    + destruct (main_summarize_after_summary r summ tc)
        as [(tm & _ & E)|(detail & tm & _ & E)]; [done..| |];
        rewrite E; eexists.
      * right. by eexists.
      * left. by eexists _, _.
    + rewrite main_summarize_valid by done. rewrite Hgen. run_handler.
      eexists. left. by eexists _, _.
  - exists []. left.
    destruct (main_summarize_invalid r) as (detail & E).
    + destruct (decide (length (transcript r) < 10)); [by left|right].
      destruct (strip (transcript r)); [done|].
      destruct Hinvalid. split; [lia|done].
    + by eexists _, _.
Qed.

(** The summary enters the body through [escaped]: a [<script>] in it
    arrives as [&lt;script&gt;], between the escaped text before and after
    it. *)
Lemma main_html_content_escapes (a b : str) (mi : option MeetingInfo) :
  html_content (a ++ u "<script>" ++ b) mi
  = (html_0 ++ meta_info mi ++ html_1)
    ++ (escaped a ++ u "&lt;script&gt;" ++ escaped b)
    ++ (html_2 ++ date_or_today mi ++ html_3).
Proof.
  unfold html_content. fold (escaped (a ++ u "<script>" ++ b)).
  rewrite !escaped_app, escaped_script. by rewrite <- !app_assoc.
Qed.

End main_facts.

(** ** Facts about [clean_server] and [simple_http_server] *)

(** [clean_server] tests for the key before the subscript. *)
Lemma clean_date_line_returns (mi : option (gmap str str)) :
  ∃ line, clean_server.date_line mi = (Return line, []).
Proof.
  unfold clean_server.date_line. destruct mi as [d|]; [|by eexists].
  destruct (dict_truthy (Some d)); [|by eexists].
  destruct (d !! u "date") as [date|] eqn:Hdate.
  - rewrite bool_decide_eq_true_2 by done.
    unfold dict_getitem. rewrite Hdate. by eexists.
  - rewrite bool_decide_eq_false_2 by (by intros [? ?]). by eexists.
Qed.

Section simple_http_server_facts.
Context (w : world).
Import simple_http_server.

Lemma simple_send_email_returns (email summary : str)
    (mi : option (gmap str str)) :
  ∃ b tm, send_email w email summary mi = (Return b, tm).
Proof.
  unfold send_email.
  destruct (getenv w (u "GMAIL_USER")) as [[|c user]|];
    [by eexists _, _| |by eexists _, _].
  destruct (getenv w (u "GMAIL_APP_PASSWORD")) as [[|c' pw]|];
    [by eexists _, _| |by eexists _, _].
  destruct (MIMEText_cases (html_content summary)) as [[_ ->]|[_ [msg ->]]];
    [|by eexists _, _].
  run_handler. unfold smtp. destruct (smtp_transaction w _); by eexists _, _.
Qed.

(** [do_POST] on [/api/summarize] never raises and answers in one of three
    shapes; the 400 of the validation is the one without a [success]
    field. *)
Lemma simple_do_POST_shapes (request_data : outcome request) :
  ∃ reply t,
    do_POST w (u "/api/summarize") request_data = (Return reply, t)
    ∧ ((∃ summary email_sent,
          status reply = 200%Z
          ∧ body reply = {[ u "success" := JBool true;
                            u "summary" := JStr summary;
                            u "emailSent" := JBool email_sent ]})
       ∨ (∃ msg,
            status reply = 500%Z
            ∧ body reply = {[ u "success" := JBool false;
                              u "error" := JStr msg ]})
       ∨ (status reply = 400%Z
          ∧ body reply = {[ u "error" := JStr (u "텍스트가 너무 짧습니다") ]}
          ∧ t = [])).
Proof.
  unfold do_POST. rewrite bool_decide_eq_true_2 by done.
  destruct request_data as [r|e]; run_handler.
  - destruct (_ || _).
    + eexists _, _. split; [done|]. right. right. done.
    + destruct (call_openai_api w _ _) as [[summ|e] tc]; run_handler.
      * set (dispatch := if _ && _ then _ else _).
        assert (∃ b tm, dispatch = (Return b, tm)) as (b & tm & ->).
        { subst dispatch. destruct (_ && _); [|by eexists _, _].
          apply simple_send_email_returns. }
        run_handler. eexists _, _. split; [done|]. left. by eexists _, _.
      * eexists _, _. split; [done|]. right. left. by eexists.
  - eexists _, _. split; [done|]. right. left. by eexists.
Qed.

End simple_http_server_facts.

(** * The claims *)

(** ** Input validation *)

(** C1 (as amended).  A request whose transcript, as received and without
    trimming, has fewer than 10 characters (the absent and the empty
    transcript included) is answered by [working_server] with the 400
    validation failure, and no call to the provider or to the relay is
    made.  [main] does the same, and also rejects a transcript that is
    blank after trimming. *)
Theorem short_transcript_rejected (w : world)
    (r : working_server.request) (r' : main.SummaryRequest) :
  length (default [] (working_server.transcript r)) < 10 →
  length (main.transcript r') < 10 ∨ strip (main.transcript r') = [] →
  working_server.summarize_and_email w r
    = (Raise (HTTPException 400 (u "텍스트가 너무 짧습니다")), [])
  ∧ ∃ detail,
      main.summarize_and_email w r' = (Raise (HTTPException 400 detail), []).
Proof.
  intros Hr Hr'. split.
  - by apply working_summarize_invalid.
  - by apply main_summarize_invalid.
Qed.

Lemma short_transcript_rejected_witness :
  working_server.summarize_and_email scenario.world_ok
    {| working_server.transcript := Some (u "too short");
       working_server.language := None;
       working_server.email := Some (u "pm@example.com");
       working_server.meetingInfo := None |}
    = (Raise (HTTPException 400 (u "텍스트가 너무 짧습니다")), [])
  ∧ ∃ detail,
      main.summarize_and_email scenario.world_ok
        {| main.transcript := u "               ";
           main.language := u "korean";
           main.email := u "pm@example.com";
           main.meetingInfo := None;
           main.prompt := None |}
      = (Raise (HTTPException 400 detail), []).
Proof.
  apply short_transcript_rejected.
  - vm_compute. lia.
  - right. vm_compute. reflexivity.
Defined.

(** The claim as written measures the trimmed transcript: here the
    transcript has two characters once trimmed, passes both validations and
    reaches the provider. *)
Lemma trimmed_short_transcript_reaches_provider :
  let t := u "hi        " in
  length (strip t) < 10
  ∧ (∃ res p,
       working_server.summarize_and_email scenario.world_ok
         {| working_server.transcript := Some t;
            working_server.language := None;
            working_server.email := None;
            working_server.meetingInfo := None |}
       = (Return res, [Post p]))
  ∧ (∃ res p s,
       main.summarize_and_email scenario.world_ok
         {| main.transcript := t;
            main.language := u "korean";
            main.email := u "pm@example.com";
            main.meetingInfo := None;
            main.prompt := None |}
       = (Return res, [Post p; Smtp s])).
Proof.
  split; [vm_compute; lia|].
  split.
  - eexists _, _. vm_compute. reflexivity.
  - eexists _, _, _. vm_compute. reflexivity.
Qed.

(** ** Prompt selection *)

(** C2 (as amended).  For a request that passes validation, with the
    provider key configured, the first outbound call is the provider
    request and its user message starts with the Korean template when the
    language is ["korean"] (or, in [working_server], absent), and with the
    English template for every other value, ["english"] and unrecognized
    values such as ["french"] alike. *)
Theorem prompt_follows_language (w : world)
    (r : working_server.request) (r' : main.SummaryRequest) :
  truthy (getenv w (u "OPENAI_API_KEY")) = true →
  10 ≤ length (default [] (working_server.transcript r)) →
  10 ≤ length (main.transcript r') → strip (main.transcript r') ≠ [] →
  (∃ p rest c,
      snd (working_server.summarize_and_email w r) = Post p :: rest
      ∧ user_contents p = [c]
      ∧ startswith c
          match working_server.language r with
          | None => working_server.get_korean_prompt
          | Some l =>
            if bool_decide (l = u "korean")
            then working_server.get_korean_prompt
            else working_server.get_english_prompt
          end = true)
  ∧ (∃ p rest c,
      snd (main.summarize_and_email w r') = Post p :: rest
      ∧ user_contents p = [c]
      ∧ startswith c
          (if bool_decide (main.language r' = u "korean")
           then main.get_korean_prompt
           else main.get_english_prompt) = true).
Proof.
  intros Hkey Hlen Hlen' Hblank. split.
  - rewrite working_summarize_valid by done.
    edestruct (working_call_openai_api_request w
                 (default [] (working_server.transcript r))
                 (default (u "korean") (working_server.language r)))
      as (p & Hp & Hmsg); [done|].
    rewrite snd_try_except, snd_bind, Hp.
    eexists p, _, _. split; [reflexivity|].
    split; [by eapply user_contents_two|].
    destruct (working_server.language r) as [l|]; simpl default.
    + destruct (bool_decide (l = u "korean")); apply startswith_app.
    + rewrite bool_decide_eq_true_2 by done. apply startswith_app.
  - rewrite main_summarize_valid by done.
    edestruct (main_generate_summary_request w (main.transcript r')
                 (main.language r')) as (p & sys & Hp & Hmsg); [done|].
    rewrite snd_try_except, snd_bind, Hp.
    eexists p, _, _. split; [reflexivity|].
    split; [by eapply user_contents_two|].
    destruct (bool_decide (main.language r' = u "korean"));
      apply startswith_app.
Qed.

Lemma prompt_follows_language_witness :
  (∃ p rest c,
      snd (working_server.summarize_and_email scenario.world_ok
             {| working_server.transcript := Some scenario.transcript;
                working_server.language := Some (u "english");
                working_server.email := None;
                working_server.meetingInfo := None |}) = Post p :: rest
      ∧ user_contents p = [c]
      ∧ startswith c working_server.get_english_prompt = true)
  ∧ (∃ p rest c,
      snd (main.summarize_and_email scenario.world_ok
             {| main.transcript := scenario.transcript;
                main.language := u "korean";
                main.email := u "pm@example.com";
                main.meetingInfo := None;
                main.prompt := None |}) = Post p :: rest
      ∧ user_contents p = [c]
      ∧ startswith c main.get_korean_prompt = true).
Proof.
  apply (prompt_follows_language scenario.world_ok
           {| working_server.transcript := Some scenario.transcript;
              working_server.language := Some (u "english");
              working_server.email := None;
              working_server.meetingInfo := None |}
           {| main.transcript := scenario.transcript;
              main.language := u "korean";
              main.email := u "pm@example.com";
              main.meetingInfo := None;
              main.prompt := None |}).
  - vm_compute. reflexivity.
  - vm_compute. lia.
  - vm_compute. lia.
  - vm_compute. discriminate.
Defined.

(** The claim as written sends every language other than ["english"] to
    the Korean template: with ["french"] the user message starts with the
    English template and not with the Korean one. *)
Lemma unrecognized_language_gets_english_prompt :
  ∃ p rest c,
    snd (working_server.summarize_and_email scenario.world_ok
           {| working_server.transcript := Some scenario.transcript;
              working_server.language := Some (u "french");
              working_server.email := None;
              working_server.meetingInfo := None |}) = Post p :: rest
    ∧ user_contents p = [c]
    ∧ startswith c working_server.get_korean_prompt = false
    ∧ startswith c working_server.get_english_prompt = true.
Proof.
  eexists _, _, _. split; [vm_compute; reflexivity|].
  split; [vm_compute; reflexivity|].
  split; vm_compute; reflexivity.
Qed.

(** ** Mail dispatch *)

(** C3 (as amended).  In [working_server], for every request whose email
    is absent or blank after trimming, no SMTP session is opened and a
    returned result has [emailSent = false].  [main] has no such test: for
    every request that obtained a summary it calls [send_email], and with
    the mail credentials configured and a body that UTF-8 can encode a
    session addressed to the request's email, whatever it is, is opened;
    a body that [MIMEText] cannot encode ends the request with status 500
    before any session. *)
Theorem blank_email_is_never_dispatched (w : world) :
  (∀ r : working_server.request,
      strip (default [] (working_server.email r)) = [] →
      mail_calls (snd (working_server.summarize_and_email w r)) = []
      ∧ ∀ res,
          fst (working_server.summarize_and_email w r) = Return res →
          working_server.emailSent res = false)
  ∧ (∀ (r' : main.SummaryRequest) (summ : str) (tc : list event),
      10 ≤ length (main.transcript r') → strip (main.transcript r') ≠ [] →
      main.generate_summary w (main.transcript r') (main.language r')
      = (Return summ, tc) →
      truthy (getenv w (u "GMAIL_USER")) = true →
      truthy (getenv w (u "GMAIL_APP_PASSWORD")) = true →
      (encodable (main.html_content summ (main.meetingInfo r')) = true →
       ∃ s,
         snd (main.summarize_and_email w r') = tc ++ [Smtp s]
         ∧ To (sent_message s) = main.email r'
         ∧ html_part (sent_message s)
           = main.html_content summ (main.meetingInfo r'))
      ∧ (encodable (main.html_content summ (main.meetingInfo r')) = false →
         ∃ detail,
           main.summarize_and_email w r'
           = (Raise (HTTPException 500 detail), tc))).
Proof.
  split.
  - intros r Hblank.
    destruct (working_summarize_cases w r)
      as [(status & detail & tc & -> & Hmail)
         |(summ & tc & b & tm & Hlen & Hcall & Hd & ->)].
    + split; [done|]. intros res [=].
    + rewrite Hblank, andb_false_r in Hd. injection Hd as <- <-.
      split.
      * simpl snd. rewrite app_nil_r.
        pose proof (working_call_openai_api_no_mail w
                      (default [] (working_server.transcript r))
                      (default (u "korean") (working_server.language r)))
          as H.
        by rewrite Hcall in H.
      * by intros res [= <-].
  - intros r' summ tc Hlen Hblank Hgen Huser Hpw. split; intros Hbody.
    + destruct (main_send_email_configured w (main.email r') summ
                  (main.meetingInfo r')) as (s & Hto & Hpart & E); [done..|].
      exists s. split; [|done].
      destruct (main_summarize_after_summary w r' summ tc)
        as [(tm & E' & ->)|(detail & tm & E' & ->)]; [done..| |];
        rewrite E in E'; by injection E' as _ <-.
    + destruct (main_send_email_unencodable w (main.email r') summ
                  (main.meetingInfo r')) as (what & _ & E); [done..|].
      destruct (main_summarize_after_summary w r' summ tc)
        as [(tm & E' & _)|(detail & tm & E' & ->)]; [done..| |];
        rewrite E in E'; [done|].
      injection E' as <- <-. rewrite app_nil_r. by eexists.
Qed.

Lemma blank_email_is_never_dispatched_witness :
  (mail_calls
     (snd (working_server.summarize_and_email scenario.world_ok
             {| working_server.transcript := Some scenario.transcript;
                working_server.language := Some (u "korean");
                working_server.email := Some (u "   ");
                working_server.meetingInfo := None |})) = []
   ∧ ∀ res,
       fst (working_server.summarize_and_email scenario.world_ok
              {| working_server.transcript := Some scenario.transcript;
                 working_server.language := Some (u "korean");
                 working_server.email := Some (u "   ");
                 working_server.meetingInfo := None |}) = Return res →
       working_server.emailSent res = false)
  ∧ ∃ s,
      snd (main.summarize_and_email scenario.world_ok
             {| main.transcript := scenario.transcript;
                main.language := u "korean";
                main.email := u "   ";
                main.meetingInfo := None;
                main.prompt := None |})
      = snd (main.generate_summary scenario.world_ok scenario.transcript
               (u "korean")) ++ [Smtp s]
      ∧ To (sent_message s) = u "   "
      ∧ html_part (sent_message s)
        = main.html_content scenario.completion None.
Proof.
  destruct (blank_email_is_never_dispatched scenario.world_ok)
    as [Hworking Hmain].
  split.
  - apply (Hworking
             {| working_server.transcript := Some scenario.transcript;
                working_server.language := Some (u "korean");
                working_server.email := Some (u "   ");
                working_server.meetingInfo := None |}).
    vm_compute. reflexivity.
  - apply (Hmain
             {| main.transcript := scenario.transcript;
                main.language := u "korean";
                main.email := u "   ";
                main.meetingInfo := None;
                main.prompt := None |} scenario.completion).
    + vm_compute. lia.
    + vm_compute. discriminate.
    + vm_compute. reflexivity.
    + vm_compute. reflexivity.
    + vm_compute. reflexivity.
    + vm_compute. reflexivity.
Defined.

(** The claim as written covers every variant: in [main], with an empty
    email and the mail credentials configured, a session addressed to
    nobody is opened and, the relay accepting it, the result has
    [emailSent = true]. *)
Lemma main_dispatches_to_empty_email :
  ∃ res p s,
    main.summarize_and_email scenario.world_ok
      {| main.transcript := scenario.transcript;
         main.language := u "korean";
         main.email := [];
         main.meetingInfo := None;
         main.prompt := None |} = (Return res, [Post p; Smtp s])
    ∧ main.emailSent res = true
    ∧ To (sent_message s) = [].
Proof.
  eexists _, _, _. split; [vm_compute; reflexivity|].
  split; reflexivity.
Qed.







(** ** Configuration *)

(** C5 (as amended).  While the provider key is absent from the
    environment (unset or empty), the summarization call fails before
    [requests.post] is reached: [call_openai_api] raises with an empty
    trace in both variants, [working_server] with status 500 and [main]
    with the [ValueError] that [generate_summary] turns into status 500; a
    request that passes validation therefore ends with status 500 and no
    outbound call; a request that fails validation is answered with its
    400 first, the key never being looked at; and no request at all makes
    an outbound call. *)
Theorem missing_provider_key_fails_before_any_request (w : world) :
  truthy (getenv w (u "OPENAI_API_KEY")) = false →
  (∀ t l,
      working_server.call_openai_api w t l
      = (Raise (HTTPException 500 (u "OPENAI_API_KEY가 설정되지 않았습니다")),
         []))
  ∧ (∀ r,
      ∃ status detail,
        working_server.summarize_and_email w r
        = (Raise (HTTPException status detail), [])
        ∧ (10 ≤ length (default [] (working_server.transcript r)) →
           status = 500%Z)
        ∧ (length (default [] (working_server.transcript r)) < 10 →
           status = 400%Z))
  ∧ (∀ msgs mdl,
      main.call_openai_api w msgs mdl
      = (Raise (ValueError (u "OPENAI_API_KEY 환경변수가 설정되지 않았습니다")),
         []))
  ∧ (∀ t l,
      main.generate_summary w t l
      = (Raise (HTTPException 500
                  (u "요약 생성 실패: "
                   ++ u "OPENAI_API_KEY 환경변수가 설정되지 않았습니다")), []))
  ∧ (∀ r',
      ∃ status detail,
        main.summarize_and_email w r'
        = (Raise (HTTPException status detail), [])
        ∧ (10 ≤ length (main.transcript r') →
           strip (main.transcript r') ≠ [] → status = 500%Z)
        ∧ (length (main.transcript r') < 10
           ∨ strip (main.transcript r') = [] → status = 400%Z)).
Proof.
  intros Hkey.
  split; [intros; by apply working_call_openai_api_no_key|].
  split; [|split; [intros; by apply main_call_openai_api_no_key|]].
  - intros r.
    destruct (decide (length (default [] (working_server.transcript r)) < 10))
      as [Hlen|Hlen].
    + rewrite working_summarize_invalid by done.
      eexists _, _. split; [done|]. split; [lia|done].
    + rewrite working_summarize_valid by lia.
      rewrite working_call_openai_api_no_key by done.
      eexists _, _. split; [done|]. split; [done|lia].
  - split; [intros; by apply main_generate_summary_no_key|]. intros r'.
    destruct (decide (10 ≤ length (main.transcript r')
                      ∧ strip (main.transcript r') ≠ []))
      as [[Hlen Hblank]|Hinvalid].
    + rewrite main_summarize_valid by done.
      rewrite main_generate_summary_no_key by done.
      eexists _, _. split; [done|]. split; [done|].
      intros [?|?]; [lia|done].
    + destruct (main_summarize_invalid w r') as (detail & ->).
      * destruct (decide (length (main.transcript r') < 10));
          [by left|right].
        destruct (strip (main.transcript r')); [done|].
        destruct Hinvalid. split; [lia|done].
      * eexists _, _. split; [done|]. split; [|done].
        intros ? ?. by destruct Hinvalid.
Qed.

Lemma missing_provider_key_fails_before_any_request_witness :
  working_server.call_openai_api scenario.world_no_provider_key
    scenario.transcript (u "korean")
  = (Raise (HTTPException 500 (u "OPENAI_API_KEY가 설정되지 않았습니다")), [])
  ∧ main.generate_summary scenario.world_no_provider_key
      scenario.transcript (u "korean")
    = (Raise (HTTPException 500
                (u "요약 생성 실패: "
                 ++ u "OPENAI_API_KEY 환경변수가 설정되지 않았습니다")), []).
Proof.
  destruct (missing_provider_key_fails_before_any_request
              scenario.world_no_provider_key)
    as (Hworking & _ & _ & Hmain & _).
  - vm_compute. reflexivity.
  - split; [apply Hworking|apply Hmain].
Defined.

(** The claim as written covers every summarize call: without the
    provider key, a request whose transcript is too short is answered
    with the 400 of the validation, which is neither a configuration nor
    a server error, in both variants. *)
Lemma missing_key_short_transcript_gets_400 :
  working_server.summarize_and_email scenario.world_no_provider_key
    {| working_server.transcript := Some (u "too short");
       working_server.language := Some (u "korean");
       working_server.email := Some (u "pm@example.com");
       working_server.meetingInfo := None |}
  = (Raise (HTTPException 400 (u "텍스트가 너무 짧습니다")), [])
  ∧ main.summarize_and_email scenario.world_no_provider_key
      {| main.transcript := u "too short";
         main.language := u "korean";
         main.email := u "pm@example.com";
         main.meetingInfo := None;
         main.prompt := None |}
    = (Raise (HTTPException 400 (u "텍스트가 너무 짧습니다")), []).
Proof. split; vm_compute; reflexivity. Qed.

(** ** The unused [prompt] field *)

(** C10.  [SummaryRequest] accepts an optional [prompt], and no function
    of [main] reads it: two requests that agree on every other field run
    to the same outcome and the same trace, hence the same provider
    request, system and user message included, and the same mail. *)
Theorem prompt_field_is_ignored (w : world) (r1 r2 : main.SummaryRequest) :
  main.transcript r1 = main.transcript r2 →
  main.language r1 = main.language r2 →
  main.email r1 = main.email r2 →
  main.meetingInfo r1 = main.meetingInfo r2 →
  main.summarize_and_email w r1 = main.summarize_and_email w r2.
Proof.
  destruct r1 as [t1 l1 e1 mi1 p1], r2 as [t2 l2 e2 mi2 p2].
  cbn [main.transcript main.language main.email main.meetingInfo].
  intros -> -> -> ->. reflexivity.
Qed.

Lemma prompt_field_is_ignored_witness :
  main.summarize_and_email scenario.world_ok
    {| main.transcript := scenario.transcript;
       main.language := u "english";
       main.email := u "pm@example.com";
       main.meetingInfo := None;
       main.prompt := None |}
  = main.summarize_and_email scenario.world_ok
      {| main.transcript := scenario.transcript;
         main.language := u "english";
         main.email := u "pm@example.com";
         main.meetingInfo := None;
         main.prompt := Some (u "Answer with the single word OK.") |}.
Proof.
  apply (prompt_field_is_ignored scenario.world_ok
           {| main.transcript := scenario.transcript;
              main.language := u "english";
              main.email := u "pm@example.com";
              main.meetingInfo := None;
              main.prompt := None |}
           {| main.transcript := scenario.transcript;
              main.language := u "english";
              main.email := u "pm@example.com";
              main.meetingInfo := None;
              main.prompt := Some (u "Answer with the single word OK.") |});
    vm_compute; reflexivity.
Defined.

(** ** Markup in the mail body *)

(** C6.  The claim holds where the body is built with the two [replace]
    calls, as in [main]: the summary's ['<'] and ['>'] are all escaped and
    a [<script>] arrives as [&lt;script&gt;].  [simple_http_server]
    interpolates the summary as it is: for the completion
    [<script>alert(1)</script>] the mail that is sent carries the raw tag
    and no escaped one. *)
Theorem summary_markup_in_mail_body :
  (∀ a b mi,
      main.html_content (a ++ u "<script>" ++ b) mi
      = (main.html_0 ++ main.meta_info mi ++ main.html_1)
        ++ (escaped a ++ u "&lt;script&gt;" ++ escaped b)
        ++ (main.html_2 ++ main.date_or_today mi ++ main.html_3)
      ∧ (60%N ∉ escaped (a ++ u "<script>" ++ b))
      ∧ (62%N ∉ escaped (a ++ u "<script>" ++ b)))
  ∧ ∃ reply p s,
      simple_http_server.do_POST scenario.world_markup (u "/api/summarize")
        (Return
           {| simple_http_server.transcript := Some scenario.transcript;
              simple_http_server.language := Some (u "korean");
              simple_http_server.email := Some (u "pm@example.com");
              simple_http_server.meetingInfo := None |})
      = (Return reply, [Post p; Smtp s])
      ∧ simple_http_server.status reply = 200%Z
      ∧ html_part (sent_message s)
        = simple_http_server.html_0 ++ u "<script>alert(1)</script>"
          ++ simple_http_server.html_1
      ∧ contains (html_part (sent_message s)) (u "<script>") = true
      ∧ contains (html_part (sent_message s)) (u "&lt;script&gt;") = false.
Proof.
  split.
  - intros a b mi. split; [apply main_html_content_escapes|].
    apply escaped_has_no_angle_bracket.
  - eexists _, _, _. split; [vm_compute; reflexivity|].
    split; [reflexivity|]. split; [vm_compute; reflexivity|].
    split; vm_compute; reflexivity.
Qed.

(** ** Response bodies *)

(** C8.  Every answer of [simple_http_server] to [POST /api/summarize] is
    a 200 with [success = true], a summary and [emailSent], or a 500 with
    [success = false] and an error text, or the 400 of the validation,
    whose body is the error text alone: for a transcript of nine
    characters the body has no [success] field. *)
Theorem validation_reply_has_no_success_field :
  (∀ w request_data,
      ∃ reply t,
        simple_http_server.do_POST w (u "/api/summarize") request_data
        = (Return reply, t)
        ∧ ((∃ summary email_sent,
              simple_http_server.status reply = 200%Z
              ∧ simple_http_server.body reply
                = {[ u "success" := simple_http_server.JBool true;
                     u "summary" := simple_http_server.JStr summary;
                     u "emailSent" := simple_http_server.JBool email_sent ]})
           ∨ (∃ msg,
                simple_http_server.status reply = 500%Z
                ∧ simple_http_server.body reply
                  = {[ u "success" := simple_http_server.JBool false;
                       u "error" := simple_http_server.JStr msg ]})
           ∨ (simple_http_server.status reply = 400%Z
              ∧ simple_http_server.body reply
                = {[ u "error"
                     := simple_http_server.JStr (u "텍스트가 너무 짧습니다") ]}
              ∧ t = [])))
  ∧ ∃ reply,
      simple_http_server.do_POST scenario.world_ok (u "/api/summarize")
        (Return
           {| simple_http_server.transcript := Some (u "too short");
              simple_http_server.language := Some (u "korean");
              simple_http_server.email := Some (u "pm@example.com");
              simple_http_server.meetingInfo := None |})
      = (Return reply, [])
      ∧ simple_http_server.status reply = 400%Z
      ∧ simple_http_server.body reply !! u "success" = None
      ∧ simple_http_server.body reply !! u "error"
        = Some (simple_http_server.JStr (u "텍스트가 너무 짧습니다")).
Proof.
  split; [intros; apply simple_do_POST_shapes|].
  eexists. split; [vm_compute; reflexivity|].
  split; [reflexivity|]. split; vm_compute; reflexivity.
Qed.

(** ** Meeting information in the mail body *)

(** C9.  [clean_server] renders the date line only when the date is
    there and never raises, and [working_server] renders absent
    [startTime], [duration] and [segmentCount] as empty text; but
    [working_server] reads the date with a subscript: for
    [meetingInfo = {"startTime": "10:00"}] a [KeyError] is raised while
    the body is composed, no session is opened and the request comes back
    with [emailSent = false], where [clean_server] sends the mail. *)
Theorem missing_date_drops_the_mail :
  (∀ mi, ∃ line, clean_server.date_line mi = (Return line, []))
  ∧ (∀ d date,
      working_server.meta_info (Some (<[u "date":=date]> d))
      = ret (working_server.meta_0 ++ date
             ++ working_server.meta_1
             ++ dict_get (<[u "date":=date]> d) (u "startTime") []
             ++ working_server.meta_2
             ++ dict_get (<[u "date":=date]> d) (u "duration") []
             ++ working_server.meta_3
             ++ dict_get (<[u "date":=date]> d) (u "segmentCount") []
             ++ working_server.meta_4))
  ∧ working_server.meta_info (Some {[ u "startTime" := u "10:00" ]})
    = raise (KeyError (u "'date'"))
  ∧ working_server.send_email scenario.world_ok (u "pm@example.com")
      scenario.completion (Some {[ u "startTime" := u "10:00" ]})
    = (Return false, [])
  ∧ (∃ p,
      working_server.summarize_and_email scenario.world_ok
        {| working_server.transcript := Some scenario.transcript;
           working_server.language := Some (u "korean");
           working_server.email := Some (u "pm@example.com");
           working_server.meetingInfo :=
             Some {[ u "startTime" := u "10:00" ]} |}
      = (Return {| working_server.success := true;
                   working_server.summary := scenario.completion;
                   working_server.emailSent := false |}, [Post p]))
  ∧ ∃ s,
      clean_server.send_email scenario.world_ok (u "pm@example.com")
        scenario.completion (Some {[ u "startTime" := u "10:00" ]})
      = (Return true, [Smtp s]).
Proof.
  split; [apply clean_date_line_returns|].
  split; [apply working_meta_info_with_date|].
  split; [vm_compute; reflexivity|].
  split; [vm_compute; reflexivity|].
  split; eexists; vm_compute; reflexivity.
Qed.

(** ** The end-to-end scenarios of the specification, on [working_server] *)

Example scenario_without_email :
  ∃ p,
    working_server.summarize_and_email scenario.world_ok
      {| working_server.transcript := Some scenario.transcript;
         working_server.language := Some (u "korean");
         working_server.email := Some [];
         working_server.meetingInfo := None |}
    = (Return {| working_server.success := true;
                 working_server.summary := scenario.completion;
                 working_server.emailSent := false |}, [Post p]).
Proof. eexists. vm_compute. reflexivity. Qed.

Example scenario_mail_delivered :
  ∃ p s,
    working_server.summarize_and_email scenario.world_ok
      {| working_server.transcript := Some scenario.transcript;
         working_server.language := Some (u "korean");
         working_server.email := Some (u "pm@example.com");
         working_server.meetingInfo := None |}
    = (Return {| working_server.success := true;
                 working_server.summary := scenario.completion;
                 working_server.emailSent := true |}, [Post p; Smtp s]).
Proof. eexists _, _. vm_compute. reflexivity. Qed.

Example scenario_mail_raises :
  ∃ p s,
    working_server.summarize_and_email scenario.world_relay_down
      {| working_server.transcript := Some scenario.transcript;
         working_server.language := Some (u "korean");
         working_server.email := Some (u "pm@example.com");
         working_server.meetingInfo := None |}
    = (Return {| working_server.success := true;
                 working_server.summary := scenario.completion;
                 working_server.emailSent := false |}, [Post p; Smtp s]).
Proof. eexists _, _. vm_compute. reflexivity. Qed.

(** * Further properties of the code *)

(** ** The provider step *)

(** X1.  With the key configured, [working_server.call_openai_api] takes
    the completion only from a response whose status is exactly 200; any
    other status, 201 or 204 included, is raised as status 500 with the
    provider's body text, and the body of such a response is not parsed. *)
Theorem working_accepts_only_status_200 (w : world) (t l : str)
    (resp : response) :
  truthy (getenv w (u "OPENAI_API_KEY")) = true →
  (∀ q, requests_post w q = Return resp) →
  fst (working_server.call_openai_api w t l)
  = if (status_code resp =? 200)%Z
    then choices_0_message_content resp
    else Raise (HTTPException 500 (u "OpenAI API 오류: " ++ text resp)).
Proof.
  intros Hkey Hpost. unfold working_server.call_openai_api.
  destruct (getenv w (u "OPENAI_API_KEY")) as [[|c key]|]; [done| |done].
  rewrite fst_bind. unfold post. rewrite Hpost. cbn [fst].
  destruct (status_code resp =? 200)%Z; [|done].
  by destruct (choices_0_message_content resp).
Qed.

Lemma working_accepts_only_status_200_witness :
  fst (working_server.call_openai_api
         (scenario.world_provider_status 201 (u "created"))
         scenario.transcript (u "korean"))
  = Raise (HTTPException 500 (u "OpenAI API 오류: " ++ u "created")).
Proof.
  apply (working_accepts_only_status_200
           (scenario.world_provider_status 201 (u "created"))
           scenario.transcript (u "korean")
           {| status_code := 201; text := u "created";
              http_error_msg := u "Server Error";
              choices_0_message_content := Return scenario.completion |}).
  - vm_compute. reflexivity.
  - intros q. reflexivity.
Defined.

(** X2.  With the key configured, [main.call_openai_api] fails on exactly
    the statuses 400 to 599, with status 500 and the message of
    [raise_for_status]; a response with any other status, 204 or 302
    included, is accepted and its completion text returned. *)
Theorem main_rejects_statuses_400_to_599 (w : world)
    (msgs : list message) (mdl : str) (resp : response) :
  truthy (getenv w (u "OPENAI_API_KEY")) = true →
  (∀ q, requests_post w q = Return resp) →
  ((400 ≤ status_code resp < 600)%Z →
   fst (main.call_openai_api w msgs mdl)
   = Raise (HTTPException 500
              (u "OpenAI API 호출 실패: " ++ http_error_msg resp)))
  ∧ (¬ (400 ≤ status_code resp < 600)%Z →
     ∀ c, choices_0_message_content resp = Return c →
          fst (main.call_openai_api w msgs mdl) = Return c).
Proof.
  intros Hkey Hpost. unfold main.call_openai_api.
  destruct (getenv w (u "OPENAI_API_KEY")) as [[|c key]|]; [done| |done].
  rewrite fst_try_except, fst_bind. unfold post. rewrite Hpost. cbn [fst].
  rewrite fst_bind. unfold raise_for_status. split.
  - intros [Hlo Hhi].
    apply Z.leb_le in Hlo. apply Z.ltb_lt in Hhi. by rewrite Hlo, Hhi.
  - intros Hout content Hcontent.
    destruct ((400 <=? status_code resp)%Z && (status_code resp <? 600)%Z)
      eqn:Hin.
    + apply andb_true_iff in Hin as [Hlo Hhi].
      apply Z.leb_le in Hlo. apply Z.ltb_lt in Hhi. by destruct Hout.
    + cbn [fst ret]. by rewrite Hcontent.
Qed.

Lemma main_rejects_statuses_400_to_599_witness :
  fst (main.call_openai_api
         (scenario.world_provider_status 503 (u "overloaded")) [] (u "gpt-4o"))
  = Raise (HTTPException 500 (u "OpenAI API 호출 실패: " ++ u "Server Error"))
  ∧ fst (main.call_openai_api
           (scenario.world_provider_status 204 []) [] (u "gpt-4o"))
    = Return scenario.completion.
Proof.
  split.
  - apply (proj1 (main_rejects_statuses_400_to_599
                    (scenario.world_provider_status 503 (u "overloaded"))
                    [] (u "gpt-4o")
                    {| status_code := 503; text := u "overloaded";
                       http_error_msg := u "Server Error";
                       choices_0_message_content :=
                         Return scenario.completion |}
                    ltac:(vm_compute; reflexivity)
                    ltac:(intros q; reflexivity))).
    cbn [status_code]. lia.
  - apply (proj2 (main_rejects_statuses_400_to_599
                    (scenario.world_provider_status 204 [])
                    [] (u "gpt-4o")
                    {| status_code := 204; text := [];
                       http_error_msg := u "Server Error";
                       choices_0_message_content :=
                         Return scenario.completion |}
                    ltac:(vm_compute; reflexivity)
                    ltac:(intros q; reflexivity))).
    + cbn [status_code]. lia.
    + reflexivity.
Defined.

(** X3.  Every failure of [main.generate_summary] is an [HTTPException]
    with status 500 whose detail starts with the prefix of
    [generate_summary]; an [HTTPException] that [call_openai_api] had
    already built is wrapped again, its text going through [str()]: for a
    transport failure the detail is the prefix, then the text of the inner
    exception. *)
Theorem main_provider_failures_are_wrapped_as_500 (w : world) (t l : str) :
  (∃ tc,
      (∃ summ, main.generate_summary w t l = (Return summ, tc))
      ∨ (∃ inner,
           main.generate_summary w t l
           = (Raise (HTTPException 500 (u "요약 생성 실패: " ++ inner)), tc)))
  ∧ (truthy (getenv w (u "OPENAI_API_KEY")) = true →
     ∀ m, (∀ q, requests_post w q = Raise (RequestException m)) →
          ∃ p,
            main.generate_summary w t l
            = (Raise (HTTPException 500
                        (u "요약 생성 실패: "
                         ++ str_HTTPException w 500
                              (u "OpenAI API 호출 실패: " ++ m))), [Post p])).
Proof.
  split.
  - unfold main.generate_summary.
    destruct (main.call_openai_api w _ _) as [[summ|e] tc]; run_handler.
    + exists tc. left. by exists summ.
    + eexists. right. by eexists.
  - intros Hkey m Hpost.
    unfold main.generate_summary, main.call_openai_api.
    destruct (getenv w (u "OPENAI_API_KEY")) as [[|c key]|]; [done| |done].
    unfold post. rewrite Hpost. run_handler. by eexists.
Qed.

Lemma main_provider_failures_are_wrapped_as_500_witness :
  ∃ p,
    main.generate_summary scenario.world_provider_unreachable
      scenario.transcript (u "korean")
    = (Raise (HTTPException 500
                (u "요약 생성 실패: "
                 ++ str_HTTPException scenario.world_provider_unreachable 500
                      (u "OpenAI API 호출 실패: " ++ u "Connection refused"))),
       [Post p]).
Proof.
  apply (proj2 (main_provider_failures_are_wrapped_as_500
                  scenario.world_provider_unreachable
                  scenario.transcript (u "korean"))).
  - vm_compute. reflexivity.
  - intros q. reflexivity.
Defined.

(** ** Failures of the handlers *)

(** X4.  In [working_server], when the provider step raises, the request
    ends there, with the trace of the provider step and no mail: an
    [HTTPException] leaves the handler unchanged, and any other exception
    (a transport failure, a body that is not the expected JSON) becomes
    status 500 with the handler's prefix and the text of the exception. *)
Theorem working_provider_exceptions_end_the_request (w : world)
    (r : working_server.request) (e : exn) (tc : list event) :
  10 ≤ length (default [] (working_server.transcript r)) →
  working_server.call_openai_api w
    (default [] (working_server.transcript r))
    (default (u "korean") (working_server.language r)) = (Raise e, tc) →
  working_server.summarize_and_email w r
  = (Raise match e with
           | HTTPException status detail => HTTPException status detail
           | _ => HTTPException 500 (u "요약 처리 실패: " ++ str_exn w e)
           end, tc).
Proof.
  intros Hlen Hcall. rewrite working_summarize_valid by done.
  rewrite Hcall. run_handler.
  destruct e; run_handler; by rewrite app_nil_r.
Qed.

Lemma working_provider_exceptions_end_the_request_witness :
  working_server.summarize_and_email scenario.world_provider_unreachable
    {| working_server.transcript := Some scenario.transcript;
       working_server.language := Some (u "korean");
       working_server.email := Some (u "pm@example.com");
       working_server.meetingInfo := None |}
  = (Raise (HTTPException 500 (u "요약 처리 실패: " ++ u "Connection refused")),
     snd (working_server.call_openai_api scenario.world_provider_unreachable
            scenario.transcript (u "korean"))).
Proof.
  apply (working_provider_exceptions_end_the_request
           scenario.world_provider_unreachable
           {| working_server.transcript := Some scenario.transcript;
              working_server.language := Some (u "korean");
              working_server.email := Some (u "pm@example.com");
              working_server.meetingInfo := None |}
           (RequestException (u "Connection refused"))).
  - vm_compute. lia.
  - vm_compute. reflexivity.
Defined.

Lemma main_generate_summary_trace (w : world) (t l : str) :
  snd (main.generate_summary w t l) = []
  ∨ ∃ p, snd (main.generate_summary w t l) = [Post p].
Proof.
  destruct (truthy (getenv w (u "OPENAI_API_KEY"))) eqn:Hkey.
  - right.
    destruct (main_generate_summary_request w t l) as (p & _ & Hp & _);
      [done|].
    by exists p.
  - left. by rewrite main_generate_summary_no_key.
Qed.

Lemma main_send_email_trace (w : world) (email summary : str)
    (mi : option main.MeetingInfo) :
  snd (main.send_email w email summary mi) = []
  ∨ ∃ s, snd (main.send_email w email summary mi) = [Smtp s].
Proof.
  destruct (truthy (getenv w (u "GMAIL_USER"))) eqn:Huser;
    [destruct (truthy (getenv w (u "GMAIL_APP_PASSWORD"))) eqn:Hpw|].
  - destruct (encodable (main.html_content summary mi)) eqn:Hbody.
    + right.
      destruct (main_send_email_configured w email summary mi)
        as (s & _ & _ & ->); [done..|].
      by exists s.
    + left.
      destruct (main_send_email_unencodable w email summary mi)
        as (what & _ & ->); [done..|].
      done.
  - left. rewrite main_send_email_not_configured; [done|by right].
  - left. rewrite main_send_email_not_configured; [done|by left].
Qed.

(** X5.  A request makes at most one provider call and at most one SMTP
    session, the session only after the provider call: the trace of
    [summarize_and_email], in [working_server] and in [main], is empty,
    one provider request, or one provider request followed by one
    session. *)
Theorem one_provider_call_then_one_mail (w : world)
    (r : working_server.request) (r' : main.SummaryRequest) :
  (snd (working_server.summarize_and_email w r) = []
   ∨ (∃ p, snd (working_server.summarize_and_email w r) = [Post p])
   ∨ (∃ p s,
        snd (working_server.summarize_and_email w r) = [Post p; Smtp s]))
  ∧ (snd (main.summarize_and_email w r') = []
     ∨ (∃ p, snd (main.summarize_and_email w r') = [Post p])
     ∨ (∃ p s, snd (main.summarize_and_email w r') = [Post p; Smtp s])).
Proof.
  split.
  - destruct (decide (length (default [] (working_server.transcript r)) < 10))
      as [Hlen|Hlen].
    { left. by rewrite working_summarize_invalid. }
    rewrite working_summarize_valid by lia.
    rewrite snd_try_except, fst_bind, snd_bind.
    destruct (truthy (getenv w (u "OPENAI_API_KEY"))) eqn:Hkey.
    + destruct (working_call_openai_api_request w
                  (default [] (working_server.transcript r))
                  (default (u "korean") (working_server.language r)))
        as (p & Hp & _); [done|].
      rewrite Hp.
      destruct (fst (working_server.call_openai_api w _ _)) as [summ|e].
      * rewrite fst_bind, snd_bind.
        set (dispatch := if _ && _ then _ else _).
        assert (dispatch = (Return false, [])
                ∨ ∃ b s, dispatch = (Return b, [Smtp s])) as [->| (b & s & ->)].
        { subst dispatch. destruct (_ && _); [|by left].
          destruct (working_send_email_cases w
                      (strip (default [] (working_server.email r))) summ
                      (Some (default ∅ (working_server.meetingInfo r))))
            as [E|(s & _ & _ & _ & E)]; rewrite E; [by left|right].
          by eexists _, _. }
        -- right. left. by exists p.
        -- right. right. by exists p, s.
      * right. left. exists p. by destruct e.
    + rewrite working_call_openai_api_no_key by done. by left.
  - destruct (decide (10 ≤ length (main.transcript r')
                      ∧ strip (main.transcript r') ≠ []))
      as [[Hlen Hblank]|Hinvalid].
    + rewrite main_summarize_valid by done.
      rewrite snd_try_except, fst_bind, snd_bind.
      destruct (main_generate_summary_outcome w (main.transcript r')
                  (main.language r'))
        as (tc & [(summ & Hgen)|(detail & Hgen)]);
        pose proof (main_generate_summary_trace w (main.transcript r')
                      (main.language r')) as Htc;
        rewrite Hgen in Htc |- *; cbn [fst snd] in Htc |- *.
      * assert (∃ p, tc = [Post p]) as (p & ->).
        { destruct Htc as [->|(p & ->)]; [|by exists p].
          destruct (truthy (getenv w (u "OPENAI_API_KEY"))) eqn:Hkey.
          - destruct (main_generate_summary_request w (main.transcript r')
                        (main.language r')) as (p & _ & Hp & _); [done|].
            by rewrite Hgen in Hp.
          - by rewrite main_generate_summary_no_key in Hgen. }
        rewrite fst_bind, snd_bind.
        pose proof (main_send_email_trace w (main.email r') summ
                      (main.meetingInfo r')) as Htm.
        destruct (main.send_email w (main.email r') summ (main.meetingInfo r'))
          as [[b|e] tm]; cbn [fst snd ret] in Htm |- *;
          destruct Htm as [->|(s & ->)]; cbn [app].
        -- right. left. by exists p.
        -- right. right. by exists p, s.
        -- right. left. exists p. by destruct e.
        -- right. right. exists p, s. by destruct e.
      * rewrite !app_nil_r. destruct Htc as [->|(p & ->)]; [by left|].
        right. left. by exists p.
    + left. destruct (main_summarize_invalid w r') as (detail & ->); [|done].
      destruct (decide (length (main.transcript r') < 10)); [by left|right].
      destruct (strip (main.transcript r')); [done|].
      destruct Hinvalid. split; [lia|done].
Qed.

(** ** The mail that is sent *)

Lemma working_send_email_session (w : world) (email summary : str)
    (mi : option (gmap str str)) (s : smtp_session) :
  snd (working_server.send_email w email summary mi) = [Smtp s] →
  smtp_server s = u "smtp.gmail.com"
  ∧ smtp_port s = 587%Z
  ∧ getenv w (u "GMAIL_USER") = Some (login_user s)
  ∧ getenv w (u "GMAIL_APP_PASSWORD") = Some (login_password s)
  ∧ From (sent_message s) = login_user s
  ∧ To (sent_message s) = email
  ∧ Subject (sent_message s) = working_server.subject mi
  ∧ encodable (html_part (sent_message s)) = true
  ∧ ∃ meta,
      working_server.meta_info mi = ret meta
      ∧ html_part (sent_message s)
        = working_server.html_0 ++ meta ++ working_server.html_1
          ++ escaped summary ++ working_server.html_2.
Proof.
  unfold working_server.send_email.
  destruct (getenv w (u "GMAIL_USER")) as [[|c user]|]; [done| |done].
  destruct (getenv w (u "GMAIL_APP_PASSWORD")) as [[|c' pw]|];
    [done| |done].
  unfold working_server.html_content.
  pose proof (working_meta_info_trace mi) as Htr.
  destruct (working_server.meta_info mi) as [[meta|e] tr];
    simpl in Htr; subst tr; run_handler; [|done].
  match goal with |- context [MIMEText ?body] =>
    destruct (MIMEText_cases body) as [[Hbody ->]|[_ [msg ->]]]
  end; run_handler; [|done].
  unfold smtp.
  destruct (smtp_transaction w _); run_handler; intros [= <-];
    cbn [smtp_server smtp_port login_user login_password sent_message
         From To Subject html_part];
    (split_and!; first [exact Hbody|reflexivity|by exists meta]).
Qed.

(** X6.  In [working_server], the mail of a request is built from the
    provider's completion and the environment: the session goes to
    smtp.gmail.com on port 587 and logs in with the two configured
    credentials, the message is from the configured user to the trimmed
    email of the request, its subject is the subject line of the
    request's meeting information, and its body, which UTF-8 can encode,
    is the fixed frame around the meeting-information block of the
    request and the escaped completion text. *)
Theorem working_mail_is_built_from_the_summary (w : world)
    (r : working_server.request) (summ : str) (tc : list event)
    (s : smtp_session) :
  10 ≤ length (default [] (working_server.transcript r)) →
  working_server.call_openai_api w
    (default [] (working_server.transcript r))
    (default (u "korean") (working_server.language r)) = (Return summ, tc) →
  Smtp s ∈ snd (working_server.summarize_and_email w r) →
  smtp_server s = u "smtp.gmail.com"
  ∧ smtp_port s = 587%Z
  ∧ getenv w (u "GMAIL_USER") = Some (login_user s)
  ∧ getenv w (u "GMAIL_APP_PASSWORD") = Some (login_password s)
  ∧ From (sent_message s) = login_user s
  ∧ To (sent_message s) = strip (default [] (working_server.email r))
  ∧ Subject (sent_message s)
    = working_server.subject
        (Some (default ∅ (working_server.meetingInfo r)))
  ∧ encodable (html_part (sent_message s)) = true
  ∧ ∃ meta,
      working_server.meta_info
        (Some (default ∅ (working_server.meetingInfo r))) = ret meta
      ∧ html_part (sent_message s)
        = working_server.html_0 ++ meta ++ working_server.html_1
          ++ escaped summ ++ working_server.html_2.
Proof.
  intros Hlen Hcall Hin.
  destruct (working_summarize_returns_summary w r summ tc)
    as (b & tm & Hd & Hs); [done..|].
  rewrite Hs in Hin. cbn [snd] in Hin.
  apply elem_of_app in Hin as [Hin|Hin].
  { pose proof (working_call_openai_api_no_mail w
                  (default [] (working_server.transcript r))
                  (default (u "korean") (working_server.language r))) as Hnm.
    rewrite Hcall in Hnm. cbn [snd] in Hnm.
    assert (s ∈ mail_calls tc) as Hs'.
    { unfold mail_calls. apply list_elem_of_omap. by exists (Smtp s). }
    rewrite Hnm in Hs'. by apply elem_of_nil in Hs'. }
  destruct (_ && _) in Hd;
    [|injection Hd as _ <-; by apply elem_of_nil in Hin].
  assert (snd (working_server.send_email w
                 (strip (default [] (working_server.email r))) summ
                 (Some (default ∅ (working_server.meetingInfo r))))
          = [Smtp s]) as Hsession.
  { destruct (working_send_email_cases w
                (strip (default [] (working_server.email r))) summ
                (Some (default ∅ (working_server.meetingInfo r))))
      as [E|(s' & _ & _ & _ & E)]; rewrite E in Hd |- *;
      injection Hd as _ <-; [by apply elem_of_nil in Hin|].
    apply list_elem_of_singleton in Hin. by injection Hin as ->. }
  exact (working_send_email_session w _ _ _ s Hsession).
Qed.

Lemma working_mail_is_built_from_the_summary_witness :
  ∃ s,
    Smtp s
    ∈ snd (working_server.summarize_and_email scenario.world_markup
             {| working_server.transcript := Some scenario.transcript;
                working_server.language := None;
                working_server.email := Some (u " pm@example.com ");
                working_server.meetingInfo := None |})
    ∧ To (sent_message s) = strip (default [] (Some (u " pm@example.com ")))
    ∧ ∃ meta,
        working_server.meta_info (Some (default ∅ None)) = ret meta
        ∧ html_part (sent_message s)
          = working_server.html_0 ++ meta ++ working_server.html_1
            ++ escaped (u "<script>alert(1)</script>")
            ++ working_server.html_2.
Proof.
  assert (∃ s,
            Smtp s
            ∈ snd (working_server.summarize_and_email scenario.world_markup
                     {| working_server.transcript := Some scenario.transcript;
                        working_server.language := None;
                        working_server.email := Some (u " pm@example.com ");
                        working_server.meetingInfo := None |}))
    as [s Hin].
  { eexists. vm_compute. apply list_elem_of_further, list_elem_of_here. }
  exists s. split; [exact Hin|].
  destruct (working_mail_is_built_from_the_summary scenario.world_markup
              {| working_server.transcript := Some scenario.transcript;
                 working_server.language := None;
                 working_server.email := Some (u " pm@example.com ");
                 working_server.meetingInfo := None |}
              (u "<script>alert(1)</script>")
              (snd (working_server.call_openai_api scenario.world_markup
                      scenario.transcript (u "korean")))
              s ltac:(vm_compute; lia) ltac:(vm_compute; reflexivity) Hin)
    as (_ & _ & _ & _ & _ & Hto & _ & _ & Hbody).
  split; [exact Hto|exact Hbody].
Defined.

(** X7.  In [working_server], the subject of a mail that is sent ends
    with the date of a non-empty [meeting_info], which is then always
    there, for without it the body cannot be composed; the placeholder of
    the subject line is used only when [meeting_info] is empty. *)
Theorem working_sent_subject_has_the_date (w : world) (email summary : str)
    (d : gmap str str) (s : smtp_session) :
  snd (working_server.send_email w email summary (Some d)) = [Smtp s] →
  (d = ∅ ∧ Subject (sent_message s) = u "📋 회의 요약 - " ++ u "오늘")
  ∨ (∃ date,
       d !! u "date" = Some date
       ∧ Subject (sent_message s) = u "📋 회의 요약 - " ++ date).
Proof.
  intros Hsession.
  destruct (working_send_email_session w _ _ _ s Hsession)
    as (_ & _ & _ & _ & _ & _ & -> & _ & meta & Hmeta & _).
  unfold working_server.subject, working_server.meta_info in *.
  unfold dict_truthy in *.
  destruct (decide (d = ∅)) as [->|Hne].
  - left. by rewrite bool_decide_eq_true_2.
  - right. rewrite bool_decide_eq_false_2 in Hmeta |- * by done.
    cbn [negb] in Hmeta |- *. unfold dict_getitem, dict_get in *.
    destruct (d !! u "date") as [date|]; [|done]. by exists date.
Qed.

Lemma working_sent_subject_has_the_date_witness :
  ∃ s,
    snd (working_server.send_email scenario.world_ok (u "pm@example.com")
           scenario.completion (Some {[ u "date" := u "2024-05-01" ]}))
    = [Smtp s]
    ∧ ((({[ u "date" := u "2024-05-01" ]} : gmap str str) = ∅
        ∧ Subject (sent_message s) = u "📋 회의 요약 - " ++ u "오늘")
       ∨ (∃ date,
            ({[ u "date" := u "2024-05-01" ]} : gmap str str) !! u "date"
            = Some date
            ∧ Subject (sent_message s) = u "📋 회의 요약 - " ++ date)).
Proof.
  assert (∃ s,
            snd (working_server.send_email scenario.world_ok
                   (u "pm@example.com") scenario.completion
                   (Some {[ u "date" := u "2024-05-01" ]})) = [Smtp s])
    as [s Hs].
  { eexists. vm_compute. reflexivity. }
  exists s. split; [exact Hs|].
  apply (working_sent_subject_has_the_date scenario.world_ok
           (u "pm@example.com") scenario.completion
           {[ u "date" := u "2024-05-01" ]} s Hs).
Defined.

(** ** Facts about the handler of [clean_server] *)

Section clean_server_handler.
Context (w : world).
Import clean_server.

Lemma clean_html_content_returns (summary : str)
    (mi : option (gmap str str)) :
  ∃ line,
    date_line mi = ret line
    ∧ html_content summary mi
      = ret (html_0 ++ line ++ html_1 ++ escaped summary ++ html_2).
Proof.
  unfold html_content.
  destruct (clean_date_line_returns mi) as (line & E).
  exists line. split; [done|]. by rewrite E.
Qed.

(** [send_email] never raises.  Without both credentials, or with a body
    that [MIMEText] cannot encode, it returns [False] and opens no
    session; otherwise it opens one session addressed to [email] and
    returns whether that session went through. *)
Lemma clean_send_email_cases (email summary : str)
    (mi : option (gmap str str)) :
  ∃ body,
    html_content summary mi = ret body
    ∧ (((truthy (getenv w (u "GMAIL_USER"))
         && truthy (getenv w (u "GMAIL_APP_PASSWORD")) = false
         ∨ encodable body = false)
        ∧ send_email w email summary mi = (Return false, []))
       ∨ (truthy (getenv w (u "GMAIL_USER"))
          && truthy (getenv w (u "GMAIL_APP_PASSWORD")) = true
          ∧ encodable body = true
          ∧ ∃ s,
              To (sent_message s) = email
              ∧ html_part (sent_message s) = body
              ∧ send_email w email summary mi
                = (Return match smtp_transaction w s with
                          | None => true
                          | Some _ => false
                          end, [Smtp s]))).
Proof.
  destruct (clean_html_content_returns summary mi) as (line & _ & Hbody).
  eexists. split; [exact Hbody|].
  unfold send_email. rewrite Hbody.
  destruct (getenv w (u "GMAIL_USER")) as [[|c user]|];
    [left; split; [by left|done]| |left; split; [by left|done]].
  destruct (getenv w (u "GMAIL_APP_PASSWORD")) as [[|c' pw]|];
    [left; split; [by left|done]| |left; split; [by left|done]].
  run_handler.
  match goal with |- context [MIMEText ?body] =>
    destruct (MIMEText_cases body) as [[Henc ->]|[Henc [msg ->]]]
  end; run_handler.
  - right. split; [done|]. split; [done|].
    match goal with |- context [smtp w ?s0] => exists s0 end.
    split; [done|]. split; [done|].
    unfold smtp. by destruct (smtp_transaction w _).
  - left. split; [by right|done].
Qed.

(** A transcript has a length, or is a value without one. *)
Lemma len_cases (v : value) :
  (∃ n, len v = ret n ∧ (10 ≤ n → truth_value v = true))
  ∨ (∃ type_name truth formatted,
       v = Unsized type_name truth formatted
       ∧ len v
         = raise (TypeError (u "object of type '" ++ type_name
                             ++ u "' has no len()"))).
Proof.
  destruct v as [t|type_name truth formatted|n formatted].
  - left. exists (length t). split; [done|].
    destruct t; simpl; [lia|done].
  - right. by eexists _, _, _.
  - left. exists n. split; [done|].
    destruct n; simpl; [lia|done].
Qed.

Lemma clean_summarize_invalid (r : request) (n : nat) :
  len (default (Text []) (transcript r)) = ret n → n < 10 →
  summarize_and_email w r
  = (Raise (HTTPException 400 (u "텍스트가 너무 짧습니다")), []).
Proof.
  intros Hn Hshort. unfold summarize_and_email. rewrite Hn, bind_ret_l.
  apply Nat.ltb_lt in Hshort. by rewrite Hshort, orb_true_r.
Qed.

(** Past validation the handler is the provider step, its failures
    wrapped, followed by the guarded mail step. *)
Lemma clean_summarize_valid (r : request) (n : nat) :
  len (default (Text []) (transcript r)) = ret n → 10 ≤ n →
  summarize_and_email w r
  = try_except
      (summary <-
         try_except
           (call_openai_api w (format (default (Text []) (transcript r)))
              (default (u "korean") (language r)))
           (fun openai_error =>
              raise (HTTPException 500
                       (u "요약 생성 실패: " ++ str_exn w openai_error))) ;;
       email_sent <-
         (if truthy (Some (default [] (email r)))
          then send_email w (default [] (email r)) summary
                 (Some (default ∅ (meetingInfo r)))
          else ret false) ;;
       ret {| success := true; summary := summary;
              emailSent := email_sent |})
      (fun e =>
         match e with
         | HTTPException _ _ => raise e
         | _ => raise (HTTPException 500 (u "요약 처리 실패: " ++ str_exn w e))
         end).
Proof.
  intros Hn Hlen. unfold summarize_and_email.
  destruct (len_cases (default (Text []) (transcript r)))
    as [(n' & Hn' & Htruth)|(? & ? & ? & _ & Hn')];
    rewrite Hn' in Hn; [|done].
  injection Hn as ->. rewrite Hn', bind_ret_l, Htruth by done.
  by replace (n <? 10) with false by (symmetry; apply Nat.ltb_ge; lia).
Qed.

End clean_server_handler.

(** X8.  [clean_server] tests the email for emptiness only and passes it
    on as it is: for a request that obtained a summary, with the mail
    credentials configured, any non-empty email, blanks included, gets one
    session addressed to exactly that text, with [emailSent] telling
    whether the session went through, provided UTF-8 can encode the body
    composed from the summary and the meeting information; a body it
    cannot encode stops the mail step at [MIMEText], and the request
    succeeds with [emailSent = false] and no session. *)
Theorem clean_dispatches_the_untrimmed_email (w : world)
    (r : clean_server.request) (n : nat) (summ : str) (tc : list event) :
  len (default (Text []) (clean_server.transcript r)) = ret n → 10 ≤ n →
  clean_server.call_openai_api w
    (format (default (Text []) (clean_server.transcript r)))
    (default (u "korean") (clean_server.language r)) = (Return summ, tc) →
  default [] (clean_server.email r) ≠ [] →
  truthy (getenv w (u "GMAIL_USER")) = true →
  truthy (getenv w (u "GMAIL_APP_PASSWORD")) = true →
  ∃ body,
    clean_server.html_content summ
      (Some (default ∅ (clean_server.meetingInfo r))) = ret body
    ∧ (encodable body = true →
       ∃ s,
         To (sent_message s) = default [] (clean_server.email r)
         ∧ html_part (sent_message s) = body
         ∧ clean_server.summarize_and_email w r
           = (Return {| clean_server.success := true;
                        clean_server.summary := summ;
                        clean_server.emailSent :=
                          match smtp_transaction w s with
                          | None => true
                          | Some _ => false
                          end |}, tc ++ [Smtp s]))
    ∧ (encodable body = false →
       clean_server.summarize_and_email w r
       = (Return {| clean_server.success := true;
                    clean_server.summary := summ;
                    clean_server.emailSent := false |}, tc)).
Proof.
  intros Hn Hlen Hcall Hemail Huser Hpw.
  rewrite (clean_summarize_valid w r n) by done. rewrite Hcall. run_handler.
  destruct (default [] (clean_server.email r)) as [|c e] eqn:He; [done|].
  cbn [truthy].
  destruct (clean_send_email_cases w (c :: e) summ
              (Some (default ∅ (clean_server.meetingInfo r))))
    as (body & Hbody & [[[Hcreds|Henc] E]|(_ & Henc & s & Hto & Hpart & E)]).
  - by rewrite Huser, Hpw in Hcreds.
  - exists body. split; [done|]. split; [congruence|]. intros _.
    rewrite E. run_handler. by rewrite ?app_nil_r.
  - exists body. split; [done|]. split; [|congruence]. intros _.
    exists s. split; [done|]. split; [done|]. rewrite E. run_handler.
    by rewrite ?app_nil_r.
Qed.

Lemma clean_dispatches_the_untrimmed_email_witness :
  ∃ s,
    To (sent_message s) = default [] (Some (u "   "))
    ∧ clean_server.summarize_and_email scenario.world_ok
        {| clean_server.transcript := Some (Text scenario.transcript);
           clean_server.language := None;
           clean_server.email := Some (u "   ");
           clean_server.meetingInfo := None |}
      = (Return {| clean_server.success := true;
                   clean_server.summary := scenario.completion;
                   clean_server.emailSent :=
                     match smtp_transaction scenario.world_ok s with
                     | None => true
                     | Some _ => false
                     end |},
         snd (clean_server.call_openai_api scenario.world_ok
                scenario.transcript (u "korean")) ++ [Smtp s]).
Proof.
  destruct (clean_dispatches_the_untrimmed_email scenario.world_ok
              {| clean_server.transcript := Some (Text scenario.transcript);
                 clean_server.language := None;
                 clean_server.email := Some (u "   ");
                 clean_server.meetingInfo := None |}
              (length scenario.transcript)
              scenario.completion
              (snd (clean_server.call_openai_api scenario.world_ok
                      scenario.transcript (u "korean"))))
    as (body & Hbody & Hsent & _).
  - reflexivity.
  - vm_compute. lia.
  - vm_compute. reflexivity.
  - vm_compute. discriminate.
  - vm_compute. reflexivity.
  - vm_compute. reflexivity.
  - destruct Hsent as (s & Hto & _ & E).
    + vm_compute in Hbody. injection Hbody as <-. vm_compute. reflexivity.
    + exists s. split; [exact Hto|exact E].
Defined.

(** X9.  Whatever the request, the provider and the relay do,
    [clean_server] answers with a success, with the 400 of the
    validation, or with status 500.  A 500 carries the prefix of the
    summary step, every exception of the provider step, an
    [HTTPException] included, being replaced; or it carries the prefix of
    the handler and the [TypeError] of [len()], when the request holds a
    null, a boolean or a number under [transcript], whose length the log
    line takes before the validation.  The mail step never raises. *)
Theorem clean_server_fails_with_400_or_500 (w : world)
    (r : clean_server.request) :
  ∃ t,
    (∃ summ b,
        clean_server.summarize_and_email w r
        = (Return {| clean_server.success := true;
                     clean_server.summary := summ;
                     clean_server.emailSent := b |}, t))
    ∨ clean_server.summarize_and_email w r
      = (Raise (HTTPException 400 (u "텍스트가 너무 짧습니다")), t)
    ∨ (∃ inner,
         clean_server.summarize_and_email w r
         = (Raise (HTTPException 500 (u "요약 생성 실패: " ++ inner)), t))
    ∨ (∃ type_name truth formatted,
         clean_server.transcript r
         = Some (Unsized type_name truth formatted)
         ∧ t = []
         ∧ clean_server.summarize_and_email w r
           = (Raise (HTTPException 500
                       (u "요약 처리 실패: " ++ u "object of type '"
                        ++ type_name ++ u "' has no len()")), t)).
Proof.
  destruct (len_cases (default (Text []) (clean_server.transcript r)))
    as [(n & Hn & _)|(type_name & truth & formatted & Hv & Hn)].
  - destruct (decide (n < 10)) as [Hlen|Hlen].
    + exists []. right. left. by apply (clean_summarize_invalid w r n).
    + rewrite (clean_summarize_valid w r n) by (done || lia).
      destruct (clean_server.call_openai_api w _ _) as [[summ|e] tc];
        run_handler.
      * set (dispatch := if truthy _ then _ else _).
        assert (∃ b tm, dispatch = (Return b, tm)) as (b & tm & ->).
        { subst dispatch. destruct (truthy _); [|by eexists _, _].
          destruct (clean_send_email_cases w
                      (default [] (clean_server.email r)) summ
                      (Some (default ∅ (clean_server.meetingInfo r))))
            as (body & _ & [[_ E]|(_ & _ & s & _ & _ & E)]);
            rewrite E; by eexists _, _. }
        run_handler. eexists. left. by eexists _, _.
      * eexists. right. right. left. by eexists.
  - exists []. right. right. right. exists type_name, truth, formatted.
    destruct (clean_server.transcript r) as [v|] eqn:Hr; [|done].
    simpl in Hv. subst v. split; [done|]. split; [done|].
    unfold clean_server.summarize_and_email. rewrite Hr. done.
Qed.

(** X10.  Whatever the provider and the relay do, [main] answers a request
    with a success whose [emailSent] is true, with a 400 of the
    validation, or with status 500: it has no answer with
    [success = false], and none with [emailSent = false]. *)
Theorem main_answers_success_400_or_500 (w : world)
    (r : main.SummaryRequest) :
  ∃ t,
    (∃ summ,
        main.summarize_and_email w r
        = (Return {| main.success := true; main.summary := Some summ;
                     main.correctedTranscript := None;
                     main.emailSent := true; main.error := None |}, t))
    ∨ (∃ detail,
         main.summarize_and_email w r
         = (Raise (HTTPException 400 detail), t))
    ∨ (∃ detail,
         main.summarize_and_email w r
         = (Raise (HTTPException 500 detail), t)).
Proof.
  destruct (decide (10 ≤ length (main.transcript r)
                    ∧ strip (main.transcript r) ≠ []))
    as [[Hlen Hblank]|Hinvalid].
  - destruct (main_generate_summary_outcome w (main.transcript r)
                (main.language r)) as (tc & [(summ & Hgen)|(detail & Hgen)]).
    + destruct (main_summarize_after_summary w r summ tc)
        as [(tm & _ & E)|(detail & tm & _ & E)]; [done..| |];
        rewrite E; eexists.
      * left. by eexists.
      * right. right. by eexists.
    + rewrite main_summarize_valid by done. rewrite Hgen. run_handler.
      eexists. right. right. by eexists.
  - exists []. right. left. apply main_summarize_invalid.
    destruct (decide (length (main.transcript r) < 10)); [by left|right].
    destruct (strip (main.transcript r)); [done|].
    destruct Hinvalid. split; [lia|done].
Qed.

(** ** The diagnostic endpoints *)

(** Proves two literal keys of a dict distinct. *)
Ltac distinct_keys :=
  let H := fresh in intros H; vm_compute in H; discriminate H.

(** Reads a literal key of a dict literal. *)
Ltac dict_lookup :=
  repeat (rewrite lookup_insert_ne by distinct_keys);
  first [rewrite lookup_insert_eq | rewrite lookup_singleton_eq];
  done.

Lemma truthy_py_and (a b : option str) :
  truthy (py_and a b) = truthy a && truthy b.
Proof. unfold py_and. by destruct (truthy a) eqn:Ha. Qed.

Lemma same_length_same_report (a b : option str) :
  length <$> a = length <$> b →
  truthy a = truthy b ∧ len_or_zero a = len_or_zero b.
Proof.
  destruct a as [[|c a]|], b as [[|c' b]|]; intros [=]; try done.
  split; [done|]. unfold len_or_zero. cbn [length]. congruence.
Qed.

Lemma same_prefix_same_report (a b : option str) :
  take 10 <$> a = take 10 <$> b →
  truthy a = truthy b ∧ redacted a = redacted b.
Proof.
  destruct a as [[|c a]|], b as [[|c' b]|]; intros [=]; try done.
  split; [done|]. unfold redacted. cbn [take]. congruence.
Qed.

(** X11.  What [GET /health] reports depends on the environment only
    through the length of the provider key, the first ten characters of
    the mail user and whether the mail password is set: two processes
    that agree on these three give the same report, in [working_server],
    in [main] and in [simple_http_server], whatever the key, the rest of
    the address and the password are. *)
Theorem health_check_reveals_no_secret (w1 w2 : world) :
  length <$> getenv w1 (u "OPENAI_API_KEY")
  = length <$> getenv w2 (u "OPENAI_API_KEY") →
  take 10 <$> getenv w1 (u "GMAIL_USER")
  = take 10 <$> getenv w2 (u "GMAIL_USER") →
  truthy (getenv w1 (u "GMAIL_APP_PASSWORD"))
  = truthy (getenv w2 (u "GMAIL_APP_PASSWORD")) →
  working_server.health_check w1 = working_server.health_check w2
  ∧ main.health_check w1 = main.health_check w2
  ∧ simple_http_server.do_GET w1 (u "/health")
    = simple_http_server.do_GET w2 (u "/health").
Proof.
  intros [Hkey Hlen]%same_length_same_report
         [Huser Hredacted]%same_prefix_same_report Hpass.
  unfold working_server.health_check, main.health_check,
    simple_http_server.do_GET.
  rewrite !truthy_py_and, Hkey, Hlen, Huser, Hredacted, Hpass.
  done.
Qed.

Lemma health_check_reveals_no_secret_witness :
  working_server.health_check scenario.world_ok
  = working_server.health_check scenario.world_other_secrets
  ∧ main.health_check scenario.world_ok
    = main.health_check scenario.world_other_secrets
  ∧ simple_http_server.do_GET scenario.world_ok (u "/health")
    = simple_http_server.do_GET scenario.world_other_secrets (u "/health").
Proof.
  apply (health_check_reveals_no_secret scenario.world_ok
           scenario.world_other_secrets).
  - vm_compute. reflexivity.
  - vm_compute. reflexivity.
  - vm_compute. reflexivity.
Defined.

Lemma working_health_check_flags (w : world) :
  working_server.health_check w !! u "openai_configured"
  = Some (VBool (truthy (getenv w (u "OPENAI_API_KEY"))))
  ∧ working_server.health_check w !! u "gmail_configured"
    = Some (VBool (truthy (getenv w (u "GMAIL_USER"))
                   && truthy (getenv w (u "GMAIL_APP_PASSWORD")))).
Proof.
  unfold working_server.health_check. rewrite truthy_py_and. split.
  - rewrite lookup_insert_ne by distinct_keys. by rewrite lookup_insert_eq.
  - do 3 rewrite lookup_insert_ne by distinct_keys.
    by rewrite lookup_insert_eq.
Qed.

(** X12.  The two flags of [working_server]'s health report tell what the
    handlers will do: with [openai_configured] true every summarization
    call reaches the provider, with it false none does and the call fails
    with status 500; with [gmail_configured] false [send_email] returns
    [False] without opening a session, with it true a mail without
    meeting information opens one, unless the summary holds a surrogate,
    which [MIMEText] cannot encode: then too [send_email] returns [False]
    without opening a session. *)
Theorem health_flags_predict_the_handlers (w : world) :
  ∃ openai_configured gmail_configured,
    working_server.health_check w !! u "openai_configured"
    = Some (VBool openai_configured)
    ∧ working_server.health_check w !! u "gmail_configured"
      = Some (VBool gmail_configured)
    ∧ (openai_configured = true →
       ∀ t l, ∃ p, snd (working_server.call_openai_api w t l) = [Post p])
    ∧ (openai_configured = false →
       ∀ t l,
         working_server.call_openai_api w t l
         = (Raise (HTTPException 500
                     (u "OPENAI_API_KEY가 설정되지 않았습니다")), []))
    ∧ (gmail_configured = true →
       ∀ email summary,
         (encodable summary = true →
          ∃ s,
            snd (working_server.send_email w email summary None) = [Smtp s])
         ∧ (encodable summary = false →
            working_server.send_email w email summary None
            = (Return false, [])))
    ∧ (gmail_configured = false →
       ∀ email summary mi,
         working_server.send_email w email summary mi = (Return false, [])).
Proof.
  destruct (working_health_check_flags w) as [Hopenai Hgmail].
  eexists _, _. split; [exact Hopenai|]. split; [exact Hgmail|].
  split; [|split; [|split]].
  - intros Hkey t l.
    destruct (working_call_openai_api_request w t l) as (p & Hp & _);
      [done|].
    by exists p.
  - intros Hkey t l. by apply working_call_openai_api_no_key.
  - intros [Huser Hpw]%andb_true_iff email summary.
    unfold working_server.send_email.
    destruct (getenv w (u "GMAIL_USER")) as [[|c user]|]; [done| |done].
    destruct (getenv w (u "GMAIL_APP_PASSWORD")) as [[|c' pw]|];
      [done| |done].
    unfold working_server.html_content. cbn [working_server.meta_info].
    run_handler. fold (escaped summary).
    assert (encodable (working_server.html_0 ++ working_server.html_1
                       ++ escaped summary ++ working_server.html_2)
            = encodable summary) as Hbody.
    { rewrite !encodable_app, encodable_escaped.
      replace (encodable working_server.html_0) with true
        by (by vm_compute).
      replace (encodable working_server.html_1) with true
        by (by vm_compute).
      replace (encodable working_server.html_2) with true
        by (by vm_compute).
      by rewrite andb_true_r. }
    split; intros Henc; rewrite <- Hbody in Henc.
    + rewrite MIMEText_encodable by done. run_handler. unfold smtp.
      eexists. by destruct (smtp_transaction w _).
    + by destruct (MIMEText_unencodable _ Henc) as (what & _ & ->).
  - intros Hcreds email summary mi.
    destruct (working_send_email_cases w email summary mi)
      as [E|(s & Huser & Hpw & _)]; [done|].
    by rewrite Huser, Hpw in Hcreds.
Qed.

Lemma health_flags_predict_the_handlers_witness :
  (∃ p,
      snd (working_server.call_openai_api scenario.world_no_mail_credentials
             scenario.transcript (u "korean")) = [Post p])
  ∧ working_server.send_email scenario.world_no_mail_credentials
      (u "pm@example.com") scenario.completion None
    = (Return false, []).
Proof.
  destruct (health_flags_predict_the_handlers
              scenario.world_no_mail_credentials)
    as (b1 & b2 & H1 & H2 & Hcall & _ & _ & Hmail).
  assert (b1 = true) as Hb1.
  { vm_compute in H1. by injection H1 as <-. }
  assert (b2 = false) as Hb2.
  { vm_compute in H2. by injection H2 as <-. }
  split; [apply (Hcall Hb1)|apply (Hmail Hb2)].
Defined.

(** X13.  [main]'s health report carries a [warnings] list exactly when
    something is not configured: no such key when the provider key and
    both mail credentials are set, and otherwise one warning for each
    missing part, the provider's first. *)
Theorem main_health_warnings (w : world) :
  main.health_check w !! u "warnings"
  = match truthy (getenv w (u "OPENAI_API_KEY")),
          truthy (getenv w (u "GMAIL_USER"))
          && truthy (getenv w (u "GMAIL_APP_PASSWORD")) with
    | true, true => None
    | false, true => Some (VList [u "OpenAI API 키가 설정되지 않음"])
    | true, false => Some (VList [u "Gmail 인증 정보가 설정되지 않음"])
    | false, false =>
      Some (VList [u "OpenAI API 키가 설정되지 않음";
                   u "Gmail 인증 정보가 설정되지 않음"])
    end.
Proof.
  unfold main.health_check. rewrite truthy_py_and.
  generalize (len_or_zero (getenv w (u "OPENAI_API_KEY"))).
  generalize (redacted (getenv w (u "GMAIL_USER"))).
  destruct (truthy (getenv w (u "OPENAI_API_KEY")));
    destruct (truthy (getenv w (u "GMAIL_USER"))
              && truthy (getenv w (u "GMAIL_APP_PASSWORD")));
    intros v n; vm_compute; reflexivity.
Qed.

(** X14.  [main]'s [POST /test-openai] never raises: it always returns a
    dict with a [success] flag.  Without the provider key it answers
    [success = false] without any outbound call; with the key it makes
    one provider request, whose only message is the fixed user message,
    without a system message. *)
Theorem test_openai_never_raises (w : world) :
  (∃ d t b,
      main.test_openai w = (Return d, t)
      ∧ d !! u "success" = Some (VBool b))
  ∧ (truthy (getenv w (u "OPENAI_API_KEY")) = false →
     main.test_openai w
     = (Return {[ u "success" := VBool false;
                  u "error" := VStr (u "OpenAI API 키가 설정되지 않음") ]}, []))
  ∧ (truthy (getenv w (u "OPENAI_API_KEY")) = true →
     ∃ p,
       snd (main.test_openai w) = [Post p]
       ∧ messages (json p)
         = [ {| role := u "user";
                content := u "간단히 '테스트 성공'이라고 답해주세요." |} ]).
Proof.
  split; [|split].
  - unfold main.test_openai.
    destruct (getenv w (u "OPENAI_API_KEY")) as [[|c key]|].
    + eexists _, _, _. split; [done|].
      rewrite lookup_insert_eq. done.
    + destruct (main.call_openai_api w _ _) as [[result|e] t]; run_handler;
        eexists _, _, _; (split; [done|]); by rewrite lookup_insert_eq.
    + eexists _, _, _. split; [done|].
      rewrite lookup_insert_eq. done.
  - intros [E|E]%truthy_false; unfold main.test_openai; by rewrite E.
  - intros Hkey. unfold main.test_openai.
    destruct (main_call_openai_api_calls w
                [ {| role := u "user";
                     content := u "간단히 '테스트 성공'이라고 답해주세요." |} ]
                (u "gpt-4o")) as (p & Hp & Hmsg); [done|].
    destruct (getenv w (u "OPENAI_API_KEY")) as [[|c key]|]; [done| |done].
    exists p. split; [|done].
    rewrite snd_try_except, fst_bind, snd_bind, Hp.
    by destruct (fst (main.call_openai_api w _ _)).
Qed.

Lemma test_openai_never_raises_witness :
  main.test_openai scenario.world_no_provider_key
  = (Return {[ u "success" := VBool false;
               u "error" := VStr (u "OpenAI API 키가 설정되지 않음") ]}, [])
  ∧ ∃ p,
      snd (main.test_openai scenario.world_ok) = [Post p]
      ∧ messages (json p)
        = [ {| role := u "user";
               content := u "간단히 '테스트 성공'이라고 답해주세요." |} ].
Proof.
  split.
  - apply (proj1 (proj2 (test_openai_never_raises
                           scenario.world_no_provider_key))).
    vm_compute. reflexivity.
  - apply (proj2 (proj2 (test_openai_never_raises scenario.world_ok))).
    vm_compute. reflexivity.
Defined.

(** ** The Flask variant *)

Section simple_server_facts.
Context (w : world).
Import simple_server.

Lemma simple_server_body_encodable (summary : str) :
  encodable (html_content summary) = encodable summary.
Proof.
  unfold html_content. rewrite !encodable_app.
  replace (encodable html_0) with true by (by vm_compute).
  replace (encodable html_1) with true by (by vm_compute).
  by rewrite andb_true_r.
Qed.

(** [send_email] never raises, and its message tells what happened. *)
Lemma simple_server_send_email_cases (email summary : str)
    (mi : option (gmap str str)) :
  (truthy (getenv w (u "GMAIL_USER"))
   && truthy (getenv w (u "GMAIL_APP_PASSWORD")) = false
   ∧ send_email w email summary mi
     = (Return (false, u "Gmail 인증 정보가 설정되지 않았습니다"), []))
  ∨ (truthy (getenv w (u "GMAIL_USER"))
     && truthy (getenv w (u "GMAIL_APP_PASSWORD")) = true
     ∧ encodable summary = true
     ∧ ∃ s,
         To (sent_message s) = email
         ∧ html_part (sent_message s) = html_0 ++ summary ++ html_1
         ∧ send_email w email summary mi
           = (Return match smtp_transaction w s with
                     | None => (true, u "메일 발송 완료")
                     | Some e => (false, u "메일 발송 실패: " ++ str_exn w e)
                     end, [Smtp s]))
  ∨ (truthy (getenv w (u "GMAIL_USER"))
     && truthy (getenv w (u "GMAIL_APP_PASSWORD")) = true
     ∧ encodable summary = false
     ∧ ∃ what,
         unencodable (html_0 ++ summary ++ html_1) 0 = Some what
         ∧ send_email w email summary mi
           = (Return (false,
                      u "메일 발송 실패: "
                      ++ u "'utf-8' codec can't encode " ++ what
                      ++ u ": surrogates not allowed"), [])).
Proof.
  unfold send_email.
  destruct (getenv w (u "GMAIL_USER")) as [[|c user]|]; [by left| |by left].
  destruct (getenv w (u "GMAIL_APP_PASSWORD")) as [[|c' pw]|];
    [by left| |by left].
  right. destruct (encodable summary) eqn:Henc;
    rewrite <- simple_server_body_encodable in Henc.
  - left. split; [done|]. split; [done|].
    rewrite MIMEText_encodable by done. run_handler.
    match goal with |- context [smtp w ?s0] => exists s0 end.
    split; [done|]. split; [done|].
    unfold smtp. by destruct (smtp_transaction w _).
  - right. split; [done|]. split; [done|].
    destruct (MIMEText_unencodable _ Henc) as (what & Hwhat & ->).
    by exists what.
Qed.

End simple_server_facts.

(** X15.  Every answer of [simple_server] to [POST /api/summarize] has a
    [success] flag, the view never raises, and the flag is true exactly
    for status 200: a failure is a 400 or a 500 with [success = false] and
    an [error] text. *)
Theorem simple_server_answers_carry_success (w : world)
    (data : outcome simple_server.request) :
  ∃ reply t b,
    simple_server.summarize w data = (Return reply, t)
    ∧ simple_server.body reply !! u "success" = Some (VBool b)
    ∧ (if b then simple_server.status reply = 200%Z
       else (simple_server.status reply = 400%Z
             ∨ simple_server.status reply = 500%Z)
            ∧ ∃ msg, simple_server.body reply !! u "error" = Some (VStr msg)).
Proof.
  unfold simple_server.summarize.
  destruct data as [r|e]; run_handler.
  - destruct (_ || _).
    + eexists _, _, false. split; [done|]. cbn [simple_server.body].
      split; [by rewrite lookup_insert_eq|]. split; [by left|].
      eexists. dict_lookup.
    + destruct (simple_server.call_openai_api w _ _) as [[summ|e] tc];
        run_handler.
      * set (dispatch := if truthy _ then _ else _).
        assert (∃ sent tm, dispatch = (Return sent, tm))
          as (sent & tm & ->).
        { subst dispatch. destruct (truthy _); [|by eexists _, _].
          destruct (simple_server_send_email_cases w
                      (default [] (simple_server.email r)) summ
                      (Some (default ∅ (simple_server.meetingInfo r))))
            as [[_ E]|[(_ & _ & s & _ & _ & E)|(_ & _ & what & _ & E)]];
            rewrite E; by eexists _, _. }
        run_handler. eexists _, _, true. split; [done|].
        cbn [simple_server.body simple_server.status].
        split; [by rewrite lookup_insert_eq|done].
      * eexists _, _, false. split; [done|].
        cbn [simple_server.body simple_server.status].
        split; [by rewrite lookup_insert_eq|]. split; [by right|].
        eexists. dict_lookup.
  - eexists _, _, false. split; [done|].
    cbn [simple_server.body simple_server.status].
    split; [by rewrite lookup_insert_eq|]. split; [by right|].
    eexists. dict_lookup.
Qed.

(** X16.  [simple_server.send_email] never raises and its message tells
    why a mail did or did not go out: without both credentials it returns
    [False] with the credentials message and opens no session; with them
    and a summary UTF-8 can encode it opens one session, addressed to the
    email and carrying the summary as it is, and returns [True] with the
    completion message or [False] with the text of the exception the
    relay raised; with them and a summary that holds a surrogate it
    returns [False] with the text of the codec's error, [MIMEText] having
    raised before any session. *)
Theorem simple_server_mail_message_tells_why (w : world)
    (email summary : str) (mi : option (gmap str str)) :
  (truthy (getenv w (u "GMAIL_USER"))
   && truthy (getenv w (u "GMAIL_APP_PASSWORD")) = false →
   simple_server.send_email w email summary mi
   = (Return (false, u "Gmail 인증 정보가 설정되지 않았습니다"), []))
  ∧ (truthy (getenv w (u "GMAIL_USER"))
     && truthy (getenv w (u "GMAIL_APP_PASSWORD")) = true →
     encodable summary = true →
     ∃ s,
       To (sent_message s) = email
       ∧ html_part (sent_message s)
         = simple_server.html_0 ++ summary ++ simple_server.html_1
       ∧ simple_server.send_email w email summary mi
         = (Return match smtp_transaction w s with
                   | None => (true, u "메일 발송 완료")
                   | Some e => (false, u "메일 발송 실패: " ++ str_exn w e)
                   end, [Smtp s]))
  ∧ (truthy (getenv w (u "GMAIL_USER"))
     && truthy (getenv w (u "GMAIL_APP_PASSWORD")) = true →
     encodable summary = false →
     ∃ what,
       unencodable
         (simple_server.html_0 ++ summary ++ simple_server.html_1) 0
       = Some what
       ∧ simple_server.send_email w email summary mi
         = (Return (false,
                    u "메일 발송 실패: "
                    ++ u "'utf-8' codec can't encode " ++ what
                    ++ u ": surrogates not allowed"), [])).
Proof.
  destruct (simple_server_send_email_cases w email summary mi)
    as [[H E]|[(H & Henc & E)|(H & Henc & E)]];
    (split; [|split]); intros; try done; congruence.
Qed.

Lemma simple_server_mail_message_tells_why_witness :
  simple_server.send_email scenario.world_no_mail_credentials
    (u "pm@example.com") scenario.completion None
  = (Return (false, u "Gmail 인증 정보가 설정되지 않았습니다"), [])
  ∧ (∃ s,
        To (sent_message s) = u "pm@example.com"
        ∧ html_part (sent_message s)
          = simple_server.html_0 ++ scenario.completion
            ++ simple_server.html_1
        ∧ simple_server.send_email scenario.world_relay_down
            (u "pm@example.com") scenario.completion None
          = (Return match smtp_transaction scenario.world_relay_down s with
                    | None => (true, u "메일 발송 완료")
                    | Some e =>
                      (false,
                       u "메일 발송 실패: "
                       ++ str_exn scenario.world_relay_down e)
                    end, [Smtp s]))
  ∧ ∃ what,
      unencodable
        (simple_server.html_0 ++ (u "ok " ++ [56448%N])
         ++ simple_server.html_1) 0
      = Some what
      ∧ simple_server.send_email scenario.world_ok
          (u "pm@example.com") (u "ok " ++ [56448%N]) None
        = (Return (false,
                   u "메일 발송 실패: "
                   ++ u "'utf-8' codec can't encode " ++ what
                   ++ u ": surrogates not allowed"), []).
Proof.
  split; [|split].
  - apply (proj1 (simple_server_mail_message_tells_why
                    scenario.world_no_mail_credentials (u "pm@example.com")
                    scenario.completion None)).
    vm_compute. reflexivity.
  - apply (proj1 (proj2 (simple_server_mail_message_tells_why
                           scenario.world_relay_down (u "pm@example.com")
                           scenario.completion None))).
    + vm_compute. reflexivity.
    + vm_compute. reflexivity.
  - apply (proj2 (proj2 (simple_server_mail_message_tells_why
                           scenario.world_ok (u "pm@example.com")
                           (u "ok " ++ [56448%N]) None))).
    + vm_compute. reflexivity.
    + vm_compute. reflexivity.
Defined.



(** ** Escaping and validation at the edges *)

Lemma replace_absent (old : char) (new s : str) :
  old ∉ s → replace old new s = s.
Proof.
  induction s as [|c s IH]; [done|].
  rewrite not_elem_of_cons. intros [Hc Hs]. simpl.
  destruct (N.eqb_spec c old) as [->|_]; [done|].
  by rewrite IH.
Qed.

(** X18.  The two [replace] calls leave a text without angle brackets as
    it is, so escaping twice is escaping once; the ampersand is not
    escaped, so a summary that already holds [&lt;] is rendered like one
    that holds the angle bracket. *)
Theorem escaping_is_idempotent (s : str) :
  ((60%N ∉ s) → (62%N ∉ s) → escaped s = s)
  ∧ escaped (escaped s) = escaped s
  ∧ escaped (u "&lt;b&gt;") = escaped (u "<b>").
Proof.
  assert (∀ t : str, (60%N ∉ t) → (62%N ∉ t) → escaped t = t) as Hplain.
  { intros t Hlt Hgt. unfold escaped.
    rewrite (replace_absent 60) by done. by apply replace_absent. }
  split; [apply Hplain|]. split.
  - apply Hplain; apply escaped_has_no_angle_bracket.
  - vm_compute. reflexivity.
Qed.

Lemma escaping_is_idempotent_witness :
  escaped scenario.completion = scenario.completion.
Proof.
  apply (proj1 (escaping_is_idempotent scenario.completion)).
  - vm_compute. intros H.
    repeat (apply elem_of_cons in H as [H|H]; [discriminate H|]).
    by apply elem_of_nil in H.
  - vm_compute. intros H.
    repeat (apply elem_of_cons in H as [H|H]; [discriminate H|]).
    by apply elem_of_nil in H.
Defined.

(** X19.  A transcript of ten or more characters that are all blank
    passes the validation of [working_server], which tests only the
    length, and is sent to the provider after the prompt; [main] rejects
    the same transcript with the 400 of its emptiness test, without any
    outbound call. *)
Theorem blank_transcript_passes_working_server_only (w : world)
    (r : working_server.request) (r' : main.SummaryRequest) :
  truthy (getenv w (u "OPENAI_API_KEY")) = true →
  10 ≤ length (default [] (working_server.transcript r)) →
  strip (default [] (working_server.transcript r)) = [] →
  main.transcript r' = default [] (working_server.transcript r) →
  (∃ p rest prompt,
      snd (working_server.summarize_and_email w r) = Post p :: rest
      ∧ user_contents p
        = [prompt ++ nl ++ nl ++ default [] (working_server.transcript r)])
  ∧ main.summarize_and_email w r'
    = (Raise (HTTPException 400 (u "요약할 텍스트가 비어있습니다")), []).
Proof.
  intros Hkey Hlen Hblank Hsame. split.
  - rewrite working_summarize_valid by done.
    edestruct (working_call_openai_api_request w
                 (default [] (working_server.transcript r))
                 (default (u "korean") (working_server.language r)))
      as (p & Hp & Hmsg); [done|].
    rewrite snd_try_except, snd_bind, Hp.
    eexists p, _, _. split; [reflexivity|].
    by eapply user_contents_two.
  - unfold main.summarize_and_email. by rewrite Hsame, Hblank.
Qed.

Lemma blank_transcript_passes_working_server_only_witness :
  (∃ p rest prompt,
      snd (working_server.summarize_and_email scenario.world_ok
             {| working_server.transcript := Some (u "            ");
                working_server.language := None;
                working_server.email := None;
                working_server.meetingInfo := None |}) = Post p :: rest
      ∧ user_contents p
        = [prompt ++ nl ++ nl ++ default [] (Some (u "            "))])
  ∧ main.summarize_and_email scenario.world_ok
      {| main.transcript := u "            ";
         main.language := u "korean";
         main.email := u "pm@example.com";
         main.meetingInfo := None;
         main.prompt := None |}
    = (Raise (HTTPException 400 (u "요약할 텍스트가 비어있습니다")), []).
Proof.
  apply (blank_transcript_passes_working_server_only scenario.world_ok
           {| working_server.transcript := Some (u "            ");
              working_server.language := None;
              working_server.email := None;
              working_server.meetingInfo := None |}
           {| main.transcript := u "            ";
              main.language := u "korean";
              main.email := u "pm@example.com";
              main.meetingInfo := None;
              main.prompt := None |}).
  - vm_compute. reflexivity.
  - vm_compute. lia.
  - vm_compute. reflexivity.
  - reflexivity.
Defined.

(** ** The request on the wire *)

Ltac no_request :=
  let H := fresh in
  intros H; exfalso; revert H; cbn [snd raise ret try_except fst];
  apply not_elem_of_nil.

Lemma working_request_on_the_wire (w : world) (t l : str)
    (p : post_request) :
  Post p ∈ snd (working_server.call_openai_api w t l) →
  ∃ key msgs,
    getenv w (u "OPENAI_API_KEY") = Some key ∧ key ≠ []
    ∧ p = chat_completion_request key msgs.
Proof.
  unfold working_server.call_openai_api.
  destruct (getenv w (u "OPENAI_API_KEY")) as [[|c key]|];
    [no_request| |no_request].
  rewrite snd_bind. unfold post at 1. simpl snd at 1. simpl fst.
  intros Hin. exists (c :: key). eexists. split; [done|]. split; [done|].
  destruct (requests_post w _) as [resp|e].
  - destruct (status_code resp =? 200)%Z.
    + destruct (choices_0_message_content resp);
        apply list_elem_of_singleton in Hin; injection Hin as ->; reflexivity.
    + apply list_elem_of_singleton in Hin; injection Hin as ->; reflexivity.
  - apply list_elem_of_singleton in Hin; injection Hin as ->; reflexivity.
Qed.

Ltac the_request Hin :=
  cbn [snd fst app bind try_except ret raise lift] in Hin;
  rewrite ?app_nil_r in Hin;
  apply list_elem_of_singleton in Hin; injection Hin as ->; reflexivity.

Lemma main_request_on_the_wire (w : world) (msgs : list message)
    (p : post_request) :
  Post p ∈ snd (main.call_openai_api w msgs (u "gpt-4o")) →
  ∃ key,
    getenv w (u "OPENAI_API_KEY") = Some key ∧ key ≠ []
    ∧ p = chat_completion_request key msgs.
Proof.
  unfold main.call_openai_api.
  destruct (getenv w (u "OPENAI_API_KEY")) as [[|c key]|];
    [no_request| |no_request].
  rewrite snd_try_except, snd_bind, fst_bind.
  unfold post at 1 2 3. simpl fst. simpl snd at 1.
  intros Hin. exists (c :: key). split; [done|]. split; [done|].
  destruct (requests_post w _) as [resp|e]; [|destruct e; the_request Hin].
  rewrite snd_bind, fst_bind in Hin. unfold raise_for_status in Hin.
  destruct (_ && _); [the_request Hin|].
  destruct (choices_0_message_content resp) as [s|[]]; the_request Hin.
Qed.

Ltac every_branch Hin :=
  unfold post, raise_for_status in Hin;
  cbn [snd fst app bind try_except ret raise lift] in Hin;
  repeat match type of Hin with
         | context [match ?x with _ => _ end] =>
           lazymatch x with
           | bool_decide _ => fail
           | _ =>
             destruct x;
             cbn [snd fst app bind try_except ret raise lift] in Hin
           end
         end;
  the_request Hin.

Lemma clean_request_on_the_wire (w : world) (t l : str)
    (p : post_request) :
  Post p ∈ snd (clean_server.call_openai_api w t l) →
  ∃ key msgs,
    getenv w (u "OPENAI_API_KEY") = Some key ∧ key ≠ []
    ∧ p = chat_completion_request key msgs.
Proof.
  unfold clean_server.call_openai_api.
  destruct (getenv w (u "OPENAI_API_KEY")) as [[|c key]|];
    [no_request| |no_request].
  intros Hin. exists (c :: key). eexists. split; [done|]. split; [done|].
  every_branch Hin.
Qed.

Lemma simple_http_request_on_the_wire (w : world) (t l : str)
    (p : post_request) :
  Post p ∈ snd (simple_http_server.call_openai_api w t l) →
  ∃ key msgs,
    getenv w (u "OPENAI_API_KEY") = Some key ∧ key ≠ []
    ∧ p = chat_completion_request key msgs.
Proof.
  unfold simple_http_server.call_openai_api.
  destruct (getenv w (u "OPENAI_API_KEY")) as [[|c key]|];
    [no_request| |no_request].
  intros Hin. exists (c :: key). eexists. split; [done|]. split; [done|].
  every_branch Hin.
Qed.

Lemma simple_server_request_on_the_wire (w : world) (t l : str)
    (p : post_request) :
  Post p ∈ snd (simple_server.call_openai_api w t l) →
  ∃ key msgs,
    getenv w (u "OPENAI_API_KEY") = Some key ∧ key ≠ []
    ∧ p = chat_completion_request key msgs.
Proof.
  unfold simple_server.call_openai_api.
  destruct (getenv w (u "OPENAI_API_KEY")) as [[|c key]|];
    [no_request| |no_request].
  intros Hin. exists (c :: key). eexists. split; [done|]. split; [done|].
  every_branch Hin.
Qed.

(** X20.  Every request a variant makes to the provider is the same
    request but for its messages: it goes to the chat-completions URL
    with the configured, non-empty key as bearer token, model gpt-4o,
    [max_tokens] 2000, temperature 0.3 and a timeout of 60 seconds; the
    key leaves the process in no other request. *)
Theorem provider_requests_differ_only_in_messages (w : world) (t l : str)
    (p : post_request) :
  Post p ∈ snd (working_server.call_openai_api w t l)
           ++ snd (main.generate_summary w t l)
           ++ snd (main.test_openai w)
           ++ snd (clean_server.call_openai_api w t l)
           ++ snd (simple_http_server.call_openai_api w t l)
           ++ snd (simple_server.call_openai_api w t l) →
  ∃ key msgs,
    getenv w (u "OPENAI_API_KEY") = Some key ∧ key ≠ []
    ∧ p = chat_completion_request key msgs.
Proof.
  rewrite !elem_of_app. intros [H|[H|[H|[H|[H|H]]]]].
  - by eapply working_request_on_the_wire.
  - unfold main.generate_summary in H.
    rewrite snd_try_except, elem_of_app in H. destruct H as [H|H].
    + apply main_request_on_the_wire in H as (key & ? & ? & ?).
      by eexists key, _.
    + destruct (fst (main.call_openai_api w _ _)); by apply elem_of_nil in H.
  - unfold main.test_openai in H.
    rewrite snd_try_except, elem_of_app in H.
    destruct (getenv w (u "OPENAI_API_KEY")) as [[|c key]|] eqn:Hk;
      [destruct H as [H|H]; by apply elem_of_nil in H|
      |destruct H as [H|H]; by apply elem_of_nil in H].
    rewrite snd_bind, fst_bind, elem_of_app in H.
    destruct H as [[H|H]|H].
    + apply main_request_on_the_wire in H as (key' & Hk' & _ & ->).
      rewrite Hk in Hk'. injection Hk' as <-.
      by eexists (c :: key), _.
    + destruct (fst (main.call_openai_api w _ _)); by apply elem_of_nil in H.
    + destruct (fst (main.call_openai_api w _ _)); by apply elem_of_nil in H.
  - by eapply clean_request_on_the_wire.
  - by eapply simple_http_request_on_the_wire.
  - by eapply simple_server_request_on_the_wire.
Qed.

Lemma provider_requests_differ_only_in_messages_witness :
  ∃ key msgs,
    getenv scenario.world_ok (u "OPENAI_API_KEY") = Some key ∧ key ≠ []
    ∧ chat_completion_request (u "sk-test")
        [ {| role := u "user";
             content := u "간단히 '테스트 성공'이라고 답해주세요." |} ]
      = chat_completion_request key msgs.
Proof.
  apply (provider_requests_differ_only_in_messages scenario.world_ok
           scenario.transcript (u "korean")
           (chat_completion_request (u "sk-test")
              [ {| role := u "user";
                   content := u "간단히 '테스트 성공'이라고 답해주세요." |} ])).
  rewrite !elem_of_app. right. right. left.
  vm_compute. apply list_elem_of_here.
Defined.
